(** * GraphGallery: ChebyNet adapters and the SSGConv layer

    A shallow embedding of

    - [graphgallery/nn/layers/pytorch/conv/ssgc.py]            (module [SSGC]),
    - [graphgallery/gallery/nodeclas/pytorch/chebynet.py]       (module [TorchChebyNet]),
    - [graphgallery/nn/models/pytorch/__init__.py]              (module [PyTorchModels]),
    - [graphgallery/gallery/gallery_model/tensorflow/chebynet.py] (module [GalleryChebyNet]),
    - [graphgallery/nn/models/supervised/chebynet.py]           (module [SupervisedChebyNet]).

    Tensors are matrices over a numeric field: arithmetic is exact, the
    rounding of the backends' floating point numbers is not modelled.
    Python exceptions are values of [exn]; a method that mutates [self]
    is a function from the object's state to a result and the state it
    leaves behind, also when it raises.

    The first part of the file holds the definitions, the second part
    the lemmas and theorems about them. *)

From HB Require Import structures.
From mathcomp Require Import boot order algebra.
From Stdlib Require Import String DecimalString.

Set Implicit Arguments.
Unset Strict Implicit.
Unset Printing Implicit Defensive.

Import Order.TTheory GRing.Theory Num.Theory.
Local Open Scope ring_scope.

(** ** Python exceptions and results *)

(** The exception classes raised by the source ([AssertionError],
    [NotImplementedError]), by the Python operations it uses
    ([IndexError], [AttributeError]) and the classes of the
    specification's error taxonomy. *)
Inductive exn : Type :=
  | AssertionError
  | NotImplementedError
  | IndexError
  | AttributeError
  | ConfigurationError
  | ModelNotFoundError
  | UnknownTransformError.

Definition result (A : Type) : Type := (exn + A)%type.

(** A method over an object state [S]: the state survives an exception. *)
Definition pym (S A : Type) : Type := S -> result A * S.

Definition ret {S A : Type} (a : A) : pym S A := fun s => (inr a, s).

Definition raise {S A : Type} (e : exn) : pym S A := fun s => (inl e, s).

Definition bind {S A B : Type} (m : pym S A) (k : A -> pym S B) : pym S B :=
  fun s => match m s with
           | (inr a, s') => k a s'
           | (inl e, s') => (inl e, s')
           end.

Definition lift {S A : Type} (r : result A) : pym S A := fun s => (r, s).

Definition reads {S A : Type} (f : S -> A) : pym S A := fun s => (inr (f s), s).

Definition modify {S : Type} (f : S -> S) : pym S unit := fun s => (inr tt, f s).

Declare Scope py_scope.
Delimit Scope py_scope with py.
Notation "x <~ m ;; k" := (bind m (fun x => k))
  (at level 61, m at next level, right associativity) : py_scope.
Notation "m ;;; k" := (bind m (fun _ => k))
  (at level 61, right associativity) : py_scope.

(** ** Python values *)

(** A matrix or a tuple of matrices: what a transform returns and what
    the tensor converter maps over. *)
Inductive pyval (T : Type) : Type :=
  | One of T
  | Many of seq T.

Definition pymap {T U : Type} (f : T -> U) (v : pyval T) : pyval U :=
  match v with
  | One t => One (f t)
  | Many l => Many [seq f t | t <- l]
  end.

(** Attribute and keyword dictionaries, keyed by name. *)
Fixpoint assoc {V : Type} (k : string) (m : seq (string * V)) : option V :=
  if m is (k', v) :: m' then
    if String.eqb k k' then Some v else assoc k m'
  else None.

Definition setitem {V : Type} (k : string) (v : V) (m : seq (string * V))
    : seq (string * V) :=
  (k, v) :: [seq p <- m | ~~ String.eqb k p.1].

(** [a[index]] for a one-dimensional numpy array and an integer index
    array: negative indices count from the end, an index outside
    [-len, len) raises [IndexError]. *)
Definition np_item (a : seq nat) (i : int) : result nat :=
  match i with
  | Posz k => if (k < size a)%N then inr (nth 0%N a k) else inl IndexError
  | Negz k => if (k < size a)%N then inr (nth 0%N a (size a - k.+1))
              else inl IndexError
  end.

Fixpoint np_take (a : seq nat) (index : seq int) : result (seq nat) :=
  if index is i :: index' then
    match np_item a i, np_take a index' with
    | inr v, inr vs => inr (v :: vs)
    | inl e, _ => inl e
    | _, inl e => inl e
    end
  else inr [::].

(** An index of the node space of a label vector: it lies in [0, N). *)
Definition in_range (a : seq nat) (i : int) : bool :=
  (0 <= i) && (i < (size a)%:Z).

(** ** The collaborators of the adapters

    The array library, the tensor backend and the network constructors
    are imported by the source files and are not part of them: they are
    the operations of an interface. [scalar] is the type of Python
    floats, [array] of numpy and scipy matrices, [tensor] of backend
    tensors, [network] of backend models. *)

(** The keyword arguments the PyTorch trainer gives the network. *)
Record hyper (scalar : Type) : Type := Hyper {
  h_in_features : nat;
  h_out_features : nat;
  h_hids : seq nat;
  h_acts : seq string;
  h_dropout : scalar;
  h_K : nat;
  h_weight_decay : scalar;
  h_lr : scalar;
  h_bias : bool }.

(** The keyword arguments the TensorFlow adapter gives [tfChebyNet]. *)
Record tf_hyper (scalar : Type) : Type := TfHyper {
  tf_in_features : nat;
  tf_out_features : nat;
  tf_hiddens : seq nat;
  tf_activations : seq string;
  tf_dropout : scalar;
  tf_weight_decay : scalar;
  tf_order : nat;
  tf_lr : scalar;
  tf_use_bias : bool }.

Class Backend : Type := {
  scalar : Type;
  array : Type;
  tensor : Type;
  network : Type;
  (* linear algebra on arrays *)
  eye_like : array -> array;
  laplacian : scalar -> array -> array;
  lambda_max : array -> scalar;
  two : scalar;
  sdiv : scalar -> scalar -> scalar;
  scale : scalar -> array -> array;
  sub : array -> array -> array;
  dot : array -> array -> array;
  (* tensors *)
  astensor : string -> array -> tensor;
  tensor_len : tensor -> nat;
  tensor_iter : tensor -> result (seq tensor);
  (* [graphgallery.nn.models.tensorflow.ChebyNet] *)
  tfChebyNet : tf_hyper scalar -> result network;
  (* [SupervisedModel.preprocess] and [normalize_fn] *)
  super_preprocess : array -> array -> array * array;
  normalize_fn : string -> option (array -> array) }.

Local Open Scope py_scope.
Local Open Scope string_scope.
Local Open Scope seq_scope.

(** ** The Chebyshev basis transform *)

Section Chebyshev.
Context {B : Backend}.

(** Modelled from the spec: [gf.get("cheby_basis")] and
    [chebyshev_polynomials] are not among the source files. The scaled
    Laplacian is (2/lambda_max) L - I, where L is the normalized
    Laplacian of the adjacency matrix. *)
Definition scaled_laplacian (rate : scalar) (A : array) : array :=
  let L := laplacian rate A in
  sub (scale (sdiv two (lambda_max L)) L) (eye_like A).

(** Modelled from the spec: the recurrence 2 L~ T(k-1) - T(k-2) of the
    Chebyshev basis transform. *)
Definition chebyshev_recurrence (t_k_minus_one t_k_minus_two Lt : array)
    : array :=
  sub (scale two (dot Lt t_k_minus_one)) t_k_minus_two.

(** Modelled from the spec: the pair (T(k), T(k+1)) of the recurrence of
    the Chebyshev basis transform, from T(0) = I and T(1) = L~. *)
Fixpoint cheby_pair (I Lt : array) (k : nat) : array * array :=
  if k is k'.+1 then
    let (a, b) := cheby_pair I Lt k' in (b, chebyshev_recurrence b a Lt)
  else (I, Lt).

(** Modelled from the spec: the Chebyshev basis transform, absent from
    the source files, returns the list T(0), ..., T(K). *)
Definition cheby_basis (rate : scalar) (K : nat) (A : array) : seq array :=
  let I := eye_like A in
  let Lt := scaled_laplacian rate A in
  [seq (cheby_pair I Lt k).1 | k <- iota 0 K.+1].

(** Modelled from the spec: [chebyshev_polynomials(adj, rate, order)] of
    [graphgallery.utils.misc], absent from the source files, is the same
    transform under its older name. *)
Definition chebyshev_polynomials (A : array) (rate : scalar) (order : nat)
    : seq array :=
  cheby_basis rate order A.

End Chebyshev.

Arguments cheby_basis : simpl never.

(** ** The transform registry *)

Section Registry.
Context {B : Backend}.

Definition kwargs : Type := seq (string * nat).

(** Modelled from the spec: a transform instance, of a class absent from
    the source files, is callable on a matrix and stores its parameters. *)
Record Transform : Type := {
  tr_name : string;
  tr_params : kwargs;
  tr_call : array -> pyval array }.

(** Modelled from the spec: a registered transform constructor, with the
    defaults of its parameters. *)
Record TransformClass : Type := {
  tc_defaults : kwargs;
  tc_call : kwargs -> array -> pyval array }.

Definition registry : Type := seq (string * TransformClass).

(** What the callers pass to [gf.get]: a name, a pair of a name and a
    dictionary of parameters, a transform, or [None]. *)
Inductive transform_arg : Type :=
  | ByName of string
  | WithParams of string & kwargs
  | Callable of Transform
  | NoTransform.

Definition instantiate (name : string) (c : TransformClass) (kw : kwargs)
    : Transform :=
  let params := kw ++ tc_defaults c in
  {| tr_name := name; tr_params := params; tr_call := tc_call c params |}.

(** The transform [gf.get(None)] stands for. The callers apply it to a
    matrix and use the result as the matrix: it passes its input on. *)
Definition null_transform : Transform :=
  {| tr_name := "None"; tr_params := [::]; tr_call := @One array |}.

(** Modelled from the spec: [gf.get], absent from the source files,
    resolves a name to a registered constructor, fails with
    [UnknownTransformError] when the name is absent, and passes a
    transform through unchanged. *)
Definition get (reg : registry) (a : transform_arg) : result Transform :=
  match a with
  | ByName s =>
      if assoc s reg is Some c then inr (instantiate s c [::])
      else inl UnknownTransformError
  | WithParams s kw =>
      if assoc s reg is Some c then inr (instantiate s c kw)
      else inl UnknownTransformError
  | Callable t => inr t
  | NoTransform => inr null_transform
  end.

(** [t.name] for a parameter [name] of the transform [t]. *)
Definition getattr (t : Transform) (name : string) : result nat :=
  if assoc name (tr_params t) is Some v then inr v else inl AttributeError.

(** Modelled from the spec: the registered class of the Chebyshev basis
    transform, whose order is the parameter [pname] ([K] for the PyTorch
    trainer, [order] for the TensorFlow adapter) with default [K0]. *)
Definition cheby_class (pname : string) (K0 : nat) (rate : scalar)
    : TransformClass :=
  {| tc_defaults := [:: (pname, K0)];
     tc_call := fun kw A =>
       Many (cheby_basis rate (odflt K0 (assoc pname kw)) A) |}.

(** Modelled from the spec: [gf.astensors], absent from the source
    files, converts each matrix to a tensor on the device. *)
Definition astensors (device : string) (v : pyval array) : pyval tensor :=
  pymap (astensor device) v.

(** [len(v)] *)
Definition py_len (v : pyval tensor) : nat :=
  match v with
  | One t => tensor_len t
  | Many l => size l
  end.

(** [*v] in a list display. *)
Definition unpack (v : pyval tensor) : result (seq (pyval tensor)) :=
  match v with
  | One t => match tensor_iter t with
             | inr l => inr [seq One x | x <- l]
             | inl e => inl e
             end
  | Many l => inr [seq One x | x <- l]
  end.

(** The graph container: its class is not among the source files, the
    adapters read these attributes. *)
Record Graph : Type := {
  adj_matrix : array;
  attr_matrix : array;
  label : seq nat;
  num_node_attrs : nat;
  num_node_classes : nat }.

End Registry.

(** ** [graphgallery/nn/layers/pytorch/conv/ssgc.py] *)

Module SSGC.
Section Layer.

Variable F : numFieldType.
Variables n d : nat.

(** Feature tensors live in a heap and Python variables hold references
    to them, so that the aliasing [x_out = x] and the in-place update
    [x_out += ...] of [forward] are visible. *)
Definition heap : Type := seq 'M[F]_(n, d).
Definition ref : Type := nat.

Definition alloc (v : 'M[F]_(n, d)) (h : heap) : ref * heap :=
  (size h, rcons h v).

Definition read (h : heap) (r : ref) : 'M[F]_(n, d) := nth 0 h r.

Definition write (r : ref) (v : 'M[F]_(n, d)) (h : heap) : heap :=
  set_nth 0 h r v.

Record SSGConv : Type := { K : int; alpha : F }.

(** [__init__]: [assert K>0], then the two attributes are stored. *)
Definition init (K0 : int) (alpha0 : F) : result SSGConv :=
  if (0 < K0) then inr {| K := K0; alpha := alpha0 |} else inl AssertionError.

(** [range(K)]: no iteration for a negative bound. *)
Definition range (k : int) : nat := if k is Posz m then m else 0%N.

(** One turn of the loop, on the variables [x] and [x_out]:
    [x = (1 - self.alpha) * torch.spmm(adj, x)] allocates the product and
    its scaling, [x_out = x_out + x] allocates the sum. *)
Definition loop_body (l : SSGConv) (adj : 'M[F]_n)
    (st : ref * ref * heap) : ref * ref * heap :=
  let '(x, x_out, h) := st in
  let (t, h) := alloc (adj *m read h x) h in
  let (x, h) := alloc ((1 - alpha l) *: read h t) h in
  let (x_out, h) := alloc (read h x_out + read h x) h in
  (x, x_out, h).

Definition forward (l : SSGConv) (x : ref) (adj : 'M[F]_n) (h : heap)
    : ref * heap :=
  let x_in := x in
  let x_out := x in
  let '(x, x_out, h) := iter (range (K l)) (loop_body l adj) (x, x_out, h) in
  let (x_out, h) := alloc ((K l)%:~R^-1 *: read h x_out) h in
  let (t, h) := alloc (alpha l *: read h x_in) h in
  let h := write x_out (read h x_out + read h t) h in
  (x_out, h).

(** The [k]-th power of the adjacency matrix. *)
Fixpoint mxpow (A : 'M[F]_n) (k : nat) : 'M[F]_n :=
  if k is k'.+1 then A *m mxpow A k' else 1%:M.

(** The closed form of the propagation. *)
Definition ssgc_sum (a : F) (A : 'M[F]_n) (X : 'M[F]_(n, d)) (k : nat)
    : 'M[F]_(n, d) :=
  X + \sum_(1 <= i < k.+1) (1 - a) ^+ i *: (mxpow A i *m X).

(** What [i] turns of the loop leave in the heap. *)
Record loop_inv (l : SSGConv) (adj : 'M[F]_n) (h0 : heap) (x0 : ref)
    (i : nat) (st : ref * ref * heap) : Prop := LoopInv {
  li_size : (size h0 <= size st.2)%N;
  li_frame : forall p, (p < size h0)%N -> read st.2 p = read h0 p;
  li_x : read st.2 st.1.1 = (1 - alpha l) ^+ i *: (mxpow adj i *m read h0 x0);
  li_out : read st.2 st.1.2 = ssgc_sum (alpha l) adj (read h0 x0) i;
  li_out_ref : (st.1.2 < size st.2)%N;
  li_x_ref : (st.1.1 < size st.2)%N }.

End Layer.

Arguments loop_body : simpl never.
Arguments read : simpl never.
Arguments forward : simpl never.

End SSGC.

(** ** The full-batch sequences *)

Section Sequences.
Context {B : Backend}.

(** Modelled from the spec: [FullBatchSequence] of
    [graphgallery.data.sequence], absent from the source files, holds the
    full tensors, the labels and the index set, and yields them as its
    only item. *)
Record FullBatchSequence : Type := {
  fb_x : seq (pyval tensor);
  fb_y : seq nat;
  fb_out_index : seq int;
  fb_device : string }.

Definition fb_items (s : FullBatchSequence)
    : seq (seq (pyval tensor) * seq nat * seq int) :=
  [:: (fb_x s, fb_y s, fb_out_index s)].

(** An element of the input list of the TensorFlow sequence: a tensor or
    the index set. *)
Inductive tf_input : Type :=
  | TensorIn of pyval tensor
  | IndexIn of seq int.

(** Modelled from the spec: [FullBatchNodeSequence] of
    [graphgallery.sequence], absent from the source files, holds the
    inputs and the labels and yields them as its only item. *)
Record FullBatchNodeSequence : Type := {
  fbn_inputs : seq tf_input;
  fbn_labels : seq nat;
  fbn_device : option string }.

Definition fbn_items (s : FullBatchNodeSequence)
    : seq (seq tf_input * seq nat) :=
  [:: (fbn_inputs s, fbn_labels s)].

End Sequences.

(** ** [graphgallery/gallery/nodeclas/pytorch/chebynet.py] *)

Module TorchChebyNet.
Section Trainer.
Context {B : Backend}.

(** The attributes of the trainer the three methods use. [cache] is the
    mapping filled by [register_cache]. *)
Record Trainer : Type := {
  graph : Graph;
  backend : string;
  data_device : string;
  cache : seq (string * pyval tensor) }.

Definition set_cache (c : seq (string * pyval tensor)) (t : Trainer)
    : Trainer :=
  {| graph := graph t; backend := backend t;
     data_device := data_device t; cache := c |}.

(** Modelled from the spec: [Trainer.register_cache], absent from the
    source files, binds each name to its tensors in the cache. *)
Definition register_cache (kv : seq (string * pyval tensor))
    : pym Trainer unit :=
  modify (fun t =>
    set_cache (foldl (fun c p => setitem p.1 p.2 c) (cache t) kv) t).

(** [self.cache.name] *)
Definition cache_get (name : string) : pym Trainer (pyval tensor) :=
  fun t => if assoc name (cache t) is Some v then (inr v, t)
           else (inl AttributeError, t).

(** The default of [adj_transform] in [data_step]. *)
Definition default_adj_transform : transform_arg :=
  WithParams "cheby_basis" [:: ("K", 2%N)].

Definition data_step (reg : registry)
    (adj_transform attr_transform : transform_arg) : pym Trainer unit :=
  graph <~ reads graph;;
  ta <~ lift (get reg adj_transform);;
  let adj_matrix := tr_call ta (adj_matrix graph) in
  tx <~ lift (get reg attr_transform);;
  let attr_matrix := tr_call tx (attr_matrix graph) in
  device <~ reads data_device;;
  let X := astensors device attr_matrix in
  let A := astensors device adj_matrix in
  register_cache [:: ("X", X); ("A", A)].

(** The model registry: constructors by architecture and backend. *)
Definition model_registry : Type :=
  seq (string * string * (hyper scalar -> result network)).

Fixpoint find_model (mreg : model_registry) (name backend : string)
    : option (hyper scalar -> result network) :=
  if mreg is (n, b, c) :: mreg' then
    if String.eqb name n && String.eqb backend b then Some c
    else find_model mreg' name backend
  else None.

(** Modelled from the spec: [get_model] of [graphgallery.nn.models],
    absent from the source files, fails with [ModelNotFoundError] when
    the pair of a name and a backend is not registered. *)
Definition get_model (mreg : model_registry) (name backend : string)
    : result (hyper scalar -> result network) :=
  if find_model mreg name backend is Some c then inr c
  else inl ModelNotFoundError.

Definition model_step (mreg : model_registry) (hids : seq nat)
    (acts : seq string) (dropout weight_decay lr : scalar) (bias : bool)
    : pym Trainer network :=
  A <~ cache_get "A";;
  let K := py_len A in
  backend <~ reads backend;;
  model <~ lift (get_model mreg "ChebyNet" backend);;
  graph <~ reads graph;;
  lift (model {| h_in_features := num_node_attrs graph;
                 h_out_features := num_node_classes graph;
                 h_hids := hids; h_acts := acts; h_dropout := dropout;
                 h_K := K; h_weight_decay := weight_decay; h_lr := lr;
                 h_bias := bias |}).

Definition train_loader (index : seq int) : pym Trainer FullBatchSequence :=
  graph <~ reads graph;;
  labels <~ lift (np_take (label graph) index);;
  X <~ cache_get "X";;
  A <~ cache_get "A";;
  As <~ lift (unpack A);;
  device <~ reads data_device;;
  ret {| fb_x := X :: As; fb_y := labels; fb_out_index := index;
         fb_device := device |}.

End Trainer.
End TorchChebyNet.

(** ** [graphgallery/nn/models/pytorch/__init__.py] *)

Module PyTorchModels.
Section Package.
Context {B : Backend}.

(** The names the package binds, in the order of its import lines. What
    [from .parinorm import *] adds is not in the source files:
    [parinorm] stands for it. *)
Definition exports (parinorm : seq string) : seq string :=
  [:: "GAT"; "GCN"; "MedianGCN"; "TrimmedGCN"; "FastGCN"; "DAGNN"]
  ++ parinorm
  ++ [:: "SimPGCN"; "MLP"; "TAGCN"; "APPNP"; "LabelPropagation";
         "GraphSAGE"; "AGNN"; "GraphMLP"; "LATGCN"; "DGAT"; "Node2GridsCNN";
         "GAE"; "VGAE"; "RobustGCN"; "sat"; "graphat"; "bvat"].

(** Modelled from the spec: the import of a backend's package, whose
    registration code is absent from the source files, registers each
    name it binds for that backend. *)
Definition registered (parinorm : seq string)
    (ctor : string -> hyper scalar -> result network)
    : TorchChebyNet.model_registry :=
  [seq (n, "pytorch", ctor n) | n <- exports parinorm].

End Package.
End PyTorchModels.

(** ** [graphgallery/gallery/gallery_model/tensorflow/chebynet.py] *)

Module GalleryChebyNet.
Section Adapter.
Context {B : Backend}.

(** The attributes of the adapter. [backend] is the process-wide backend
    flag the adapter reads. *)
Record GalleryModel : Type := {
  graph : Graph;
  backend : string;
  device : string;
  adj_transform : Transform;
  attr_transform : Transform;
  feature_inputs : option (pyval tensor);
  structure_inputs : option (pyval tensor);
  model : option network }.

Definition set_inputs (f s : pyval tensor) (m : GalleryModel) : GalleryModel :=
  {| graph := graph m; backend := backend m; device := device m;
     adj_transform := adj_transform m; attr_transform := attr_transform m;
     feature_inputs := Some f; structure_inputs := Some s;
     model := model m |}.

Definition set_model (n : network) (m : GalleryModel) : GalleryModel :=
  {| graph := graph m; backend := backend m; device := device m;
     adj_transform := adj_transform m; attr_transform := attr_transform m;
     feature_inputs := feature_inputs m;
     structure_inputs := structure_inputs m; model := Some n |}.

(** [graph.node_attr] is this version's name of the attribute matrix. *)
Definition process_step : pym GalleryModel unit :=
  graph <~ reads graph;;
  ta <~ reads adj_transform;;
  let adj_matrix := tr_call ta (adj_matrix graph) in
  tx <~ reads attr_transform;;
  let node_attr := tr_call tx (attr_matrix graph) in
  device <~ reads device;;
  modify (set_inputs (astensors device node_attr)
                     (astensors device adj_matrix)).

(** [__init__]: the two transforms are resolved and [self.process()],
    of the absent base class, runs [process_step]. *)
Definition init (reg : registry) (g : Graph)
    (adj_transform attr_transform : transform_arg)
    (device backend : string) : result GalleryModel :=
  match get reg adj_transform with
  | inl e => inl e
  | inr ta =>
    match get reg attr_transform with
    | inl e => inl e
    | inr tx =>
      let self := {| graph := g; backend := backend; device := device;
                     adj_transform := ta; attr_transform := tx;
                     feature_inputs := None; structure_inputs := None;
                     model := None |} in
      match process_step self with
      | (inr _, self') => inr self'
      | (inl e, _) => inl e
      end
    end
  end.

(** The default of [adj_transform] in [__init__]. *)
Definition default_adj_transform : transform_arg := ByName "cheby_basis".

(** Modelled from the spec: the decorator [gf.equal], absent from the
    source files, checks that the list arguments have the same length
    before the decorated method runs and fails with [ConfigurationError]
    otherwise. *)
Definition equal {S A : Type} (lengths : seq nat) (func : pym S A)
    : pym S A :=
  if lengths is n :: ns then
    if all (fun m => m == n) ns then func else raise ConfigurationError
  else func.

Definition build (hiddens : seq nat) (activations : seq string)
    (dropout weight_decay lr : scalar) (use_bias : bool)
    : pym GalleryModel unit :=
  equal [:: size hiddens; size activations]
    (backend <~ reads backend;;
     if String.eqb backend "tensorflow" then
       graph <~ reads graph;;
       tr <~ reads adj_transform;;
       order <~ lift (getattr tr "order");;
       m <~ lift (tfChebyNet
              {| tf_in_features := num_node_attrs graph;
                 tf_out_features := num_node_classes graph;
                 tf_hiddens := hiddens; tf_activations := activations;
                 tf_dropout := dropout; tf_weight_decay := weight_decay;
                 tf_order := order; tf_lr := lr;
                 tf_use_bias := use_bias |});;
       modify (set_model m)
     else raise NotImplementedError).

(** [self.name] for an attribute set by [process_step]. *)
Definition attr_get (f : GalleryModel -> option (pyval tensor))
    : pym GalleryModel (pyval tensor) :=
  fun m => if f m is Some v then (inr v, m) else (inl AttributeError, m).

(** [graph.node_label] is this version's name of the label vector. *)
Definition train_sequence (index : seq int)
    : pym GalleryModel FullBatchNodeSequence :=
  graph <~ reads graph;;
  labels <~ lift (np_take (label graph) index);;
  fi <~ attr_get feature_inputs;;
  si <~ attr_get structure_inputs;;
  ss <~ lift (unpack si);;
  device <~ reads device;;
  ret {| fbn_inputs := TensorIn fi :: [seq TensorIn t | t <- ss]
                         ++ [:: IndexIn index];
         fbn_labels := labels; fbn_device := Some device |}.

End Adapter.
End GalleryChebyNet.

(** ** [graphgallery/nn/models/supervised/chebynet.py] *)

Module SupervisedChebyNet.
Section Model.
Context {B : Backend}.

(** A Keras [Input] placeholder. *)
Record input_spec : Type := {
  in_name : string;
  in_batch_shape : seq (option nat);
  in_sparse : bool }.

(** The layers [build] stacks. *)
Inductive layer : Type :=
  | ChebyConvolution of nat & nat & option string & option scalar
  | Dropout of scalar
  | EnsureShape of nat & nat
  | Gather
  | Softmax.

(** The compiled Keras model: its inputs in order, its layers, and what
    [compile] is given. *)
Record keras_model : Type := {
  km_inputs : seq input_spec;
  km_layers : seq layer;
  km_loss : string;
  km_lr : scalar;
  km_metrics : seq string }.

(** The attributes of the model object. [allocated] counts the tensors
    and placeholders created so far under [tf.device]. *)
Record ChebyNet : Type := {
  n_nodes : nat;
  n_features : nat;
  n_classes : nat;
  labels : seq nat;
  order : nat;
  norm_adj_rate : option scalar;
  norm_x_fn : option (array -> array);
  device : string;
  tf_x : option (pyval tensor);
  tf_adj : option (pyval tensor);
  model : option keras_model;
  built : bool;
  allocated : nat }.

Definition pysize {T : Type} (v : pyval T) : nat :=
  match v with
  | One _ => 1%N
  | Many l => size l
  end.

Definition set_tensors (x adj : pyval tensor) (m : ChebyNet) : ChebyNet :=
  {| n_nodes := n_nodes m; n_features := n_features m;
     n_classes := n_classes m; labels := labels m; order := order m;
     norm_adj_rate := norm_adj_rate m; norm_x_fn := norm_x_fn m;
     device := device m; tf_x := Some x; tf_adj := Some adj;
     model := model m; built := built m;
     allocated := (allocated m + (pysize x + pysize adj))%N |}.

Definition set_placeholders (k : nat) (m : ChebyNet) : ChebyNet :=
  {| n_nodes := n_nodes m; n_features := n_features m;
     n_classes := n_classes m; labels := labels m; order := order m;
     norm_adj_rate := norm_adj_rate m; norm_x_fn := norm_x_fn m;
     device := device m; tf_x := tf_x m; tf_adj := tf_adj m;
     model := model m; built := built m;
     allocated := (allocated m + k)%N |}.

Definition set_model (km : keras_model) (m : ChebyNet) : ChebyNet :=
  {| n_nodes := n_nodes m; n_features := n_features m;
     n_classes := n_classes m; labels := labels m; order := order m;
     norm_adj_rate := norm_adj_rate m; norm_x_fn := norm_x_fn m;
     device := device m; tf_x := tf_x m; tf_adj := tf_adj m;
     model := Some km; built := true; allocated := allocated m |}.

(** [self.to_tensor], of the absent base class, converts the matrices
    with the backend's converter on the model's device. *)
Definition preprocess (adj x : array) : pym ChebyNet unit :=
  let (adj, x) := super_preprocess adj x in
  rate <~ reads norm_adj_rate;;
  order <~ reads order;;
  let adj := if rate is Some r then Many (chebyshev_polynomials adj r order)
             else One adj in
  fn <~ reads norm_x_fn;;
  let x := if fn is Some f then f x else x in
  device <~ reads device;;
  modify (set_tensors (One (astensor device x)) (astensors device adj)).

(** [__init__]: the counts and the labels are stored by the constructor
    of the absent base class from the arguments. *)
Definition init (nodes features classes : nat) (adj x : array)
    (labels : seq nat) (order : nat) (norm_adj_rate : option scalar)
    (norm_x_type : string) (device : string) : ChebyNet :=
  (preprocess adj x
     {| n_nodes := nodes; n_features := features; n_classes := classes;
        labels := labels; order := order; norm_adj_rate := norm_adj_rate;
        norm_x_fn := normalize_fn norm_x_type; device := device;
        tf_x := None; tf_adj := None; model := None; built := false;
        allocated := 0%N |}).2.

Definition string_of_nat (n : nat) : string :=
  NilEmpty.string_of_uint (Nat.to_uint n).

Definition Input (batch_shape : seq (option nat)) (sparse : bool)
    (name : string) : input_spec :=
  {| in_name := name; in_batch_shape := batch_shape; in_sparse := sparse |}.

Definition build (hiddens : seq nat) (activations : seq string)
    (dropout lr l2_norm : scalar) (ensure_shape : bool)
    : pym ChebyNet unit :=
  if size hiddens != size activations then raise AssertionError else
  self <~ reads id;;
  let x := Input [:: None; Some (n_features self)] false "features" in
  let adj := [seq Input [:: None; None] true
                    ("adj_matrix_" ++ string_of_nat i)
             | i <- iota 0 (order self).+1] in
  let index := Input [:: None] false "index" in
  modify (set_placeholders (size (x :: adj ++ [:: index])));;;
  let h := flatten [seq [:: ChebyConvolution p.1 (order self) (Some p.2)
                              (Some l2_norm);
                            Dropout dropout]
                   | p <- zip hiddens activations] in
  let h := rcons h (ChebyConvolution (n_classes self) (order self)
                      None None) in
  let h := if ensure_shape
           then rcons h (EnsureShape (n_nodes self) (n_classes self))
           else h in
  let h := rcons (rcons h Gather) Softmax in
  let model := {| km_inputs := x :: adj ++ [:: index]; km_layers := h;
                  km_loss := "sparse_categorical_crossentropy";
                  km_lr := lr; km_metrics := [:: "accuracy"] |} in
  modify (set_model model).

(** [self.name] for an attribute set by [preprocess]. *)
Definition attr_get (f : ChebyNet -> option (pyval tensor))
    : pym ChebyNet (pyval tensor) :=
  fun m => if f m is Some v then (inr v, m) else (inl AttributeError, m).

(** [self.to_int], of the absent base class, casts the index array. *)
Definition train_sequence (index : seq int)
    : pym ChebyNet FullBatchNodeSequence :=
  labels <~ reads labels;;
  labels <~ lift (np_take labels index);;
  x <~ attr_get tf_x;;
  adj <~ attr_get tf_adj;;
  adjs <~ lift (unpack adj);;
  ret {| fbn_inputs := TensorIn x :: [seq TensorIn t | t <- adjs]
                         ++ [:: IndexIn index];
         fbn_labels := labels; fbn_device := None |}.

End Model.
End SupervisedChebyNet.

(** ** Matrices over a numeric field as the array library

    Arrays and tensors are [N] x [N] matrices, the conversion to tensors
    keeps the matrix, and a network is described by the arguments of its
    constructor. The normalized Laplacian [lap] and the estimate [lmax]
    of its largest eigenvalue are left open. *)

Section MatrixBackend.
Variable F : numFieldType.
Variable N : nat.
Variable lap : F -> 'M[F]_N -> 'M[F]_N.
Variable lmax : 'M[F]_N -> F.

Definition mx_backend : Backend :=
  {| scalar := F;
     array := 'M[F]_N;
     tensor := 'M[F]_N;
     network := (hyper F + tf_hyper F)%type;
     eye_like := fun _ => 1%:M;
     laplacian := lap;
     lambda_max := lmax;
     two := 2;
     sdiv := fun a b => a / b;
     scale := fun a A => a *: A;
     sub := fun A A' => A - A';
     dot := fun A A' => A *m A';
     astensor := fun _ A => A;
     tensor_len := fun _ => N;
     tensor_iter := fun _ => inl NotImplementedError;
     tfChebyNet := fun h => inr (inr h);
     super_preprocess := fun adj x => (adj, x);
     normalize_fn := fun _ => None |}.

End MatrixBackend.

(** ** A graph of two nodes *)

Module Example.

Definition backend : Backend :=
  mx_backend (fun (_ : rat) (A : 'M[rat]_2) => 1%:M - A) (fun _ => 2).

Definition eye : @array backend := (1%:M : 'M[rat]_2).

Definition half : @scalar backend := (1 / 2 : rat).

(** The default normalisation rate of the adjacency matrix. *)
Definition rate : @scalar backend := (- (1 / 2) : rat).

Definition graph : @Graph backend :=
  {| adj_matrix := eye; attr_matrix := eye;
     label := [:: 0%N; 1%N]; num_node_attrs := 2; num_node_classes := 2 |}.

Definition torch_registry : @registry backend :=
  [:: ("cheby_basis", @cheby_class backend "K" 2 (-(1 / 2)))].

Definition tf_registry : @registry backend :=
  [:: ("cheby_basis", @cheby_class backend "order" 2 (-(1 / 2)))].

Definition torch_ctor (h : hyper (@scalar backend))
    : result (@network backend) :=
  inr (inl h).

Definition torch_models : @TorchChebyNet.model_registry backend :=
  [:: ("ChebyNet", "pytorch", torch_ctor)].

(** The registry the package of PyTorch models fills when the starred
    import adds no name. *)
Definition package : @TorchChebyNet.model_registry backend :=
  @PyTorchModels.registered backend [::] (fun _ => torch_ctor).

Definition trainer : @TorchChebyNet.Trainer backend :=
  {| TorchChebyNet.graph := graph; TorchChebyNet.backend := "pytorch";
     TorchChebyNet.data_device := "cpu"; TorchChebyNet.cache := [::] |}.

(** The trainer after [data_step] with the default transforms. *)
Definition trained : @TorchChebyNet.Trainer backend :=
  (TorchChebyNet.data_step torch_registry
     TorchChebyNet.default_adj_transform NoTransform trainer).2.

(** The adapter under the backend flag [b], before [process_step]. *)
Definition adapter (b : string) : @GalleryChebyNet.GalleryModel backend :=
  {| GalleryChebyNet.graph := graph; GalleryChebyNet.backend := b;
     GalleryChebyNet.device := "cpu:0";
     GalleryChebyNet.adj_transform :=
       instantiate "cheby_basis" (@cheby_class backend "order" 2 (-(1 / 2)))
         [::];
     GalleryChebyNet.attr_transform := null_transform;
     GalleryChebyNet.feature_inputs := None;
     GalleryChebyNet.structure_inputs := None;
     GalleryChebyNet.model := None |}.

(** The TensorFlow adapter after [process_step]. *)
Definition processed : @GalleryChebyNet.GalleryModel backend :=
  (GalleryChebyNet.process_step (adapter "tensorflow")).2.

(** The supervised model of order 2, with and without a normalisation
    rate. *)
Definition supervised (rate : option rat)
    : @SupervisedChebyNet.ChebyNet backend :=
  @SupervisedChebyNet.init backend 2 2 2 eye eye [:: 0%N; 1%N] 2 rate
    "row_wise" "CPU:0".

(** A heap of one feature tensor, for the SSGConv layer. *)
Definition ssgc_heap : SSGC.heap rat 1 1 := [:: 1%:M].

End Example.

(** ** Further operations *)

(** The indices [a[index]] accepts: those of [-len, len). *)
Definition np_valid (a : seq nat) (i : int) : bool :=
  (- (size a)%:Z <= i) && (i < (size a)%:Z).

(** The position an index of [-len, len) selects. *)
Definition np_wrap (a : seq nat) (i : int) : nat :=
  match i with
  | Posz k => k
  | Negz k => (size a - k.+1)%N
  end.

Module SSGCOps.
Section Layer.
Variable F : numFieldType.
Variables n d : nat.

(** The value of the tensor [forward] returns. *)
Definition output (l : SSGC.SSGConv F) (adj : 'M[F]_n) (h : SSGC.heap F n d)
    (x : SSGC.ref) : 'M[F]_(n, d) :=
  SSGC.read (SSGC.forward l x adj h).2 (SSGC.forward l x adj h).1.

(** The gain of the layer on a feature matrix that the adjacency matrix
    scales by [lam]. *)
Definition gain (l : SSGC.SSGConv F) (lam : F) : F :=
  SSGC.alpha l +
  (SSGC.K l)%:~R^-1 *
    (1 + \sum_(1 <= k < (SSGC.range (SSGC.K l)).+1)
           ((1 - SSGC.alpha l) * lam) ^+ k).

End Layer.
End SSGCOps.

(** ** [ChebyNet.predict] of the supervised model *)

Module SupervisedPredict.
Import SupervisedChebyNet.
Section Predict.
Context {B : Backend}.

(** What the absent collaborators of [predict] are: the type of the
    logits, [SupervisedModel.predict], the [predict_on_batch] of the
    Keras model, [tf.is_tensor] and the [numpy] method of a tensor. *)
Variable logits : Type.
Variable super_predict : seq int -> pym ChebyNet unit.
Variable predict_on_batch : keras_model -> seq tf_input -> result logits.
Variable is_tensor : logits -> bool.
Variable numpy : logits -> logits.

(** [self.model.predict_on_batch]: the attribute of the model is looked
    up before the arguments are evaluated. *)
Definition model_get : pym ChebyNet keras_model :=
  fun m => if model m is Some km then (inr km, m)
           else (inl AttributeError, m).

Definition predict (index : seq int) : pym ChebyNet logits :=
  super_predict index;;;
  km <~ model_get;;
  x <~ attr_get tf_x;;
  adj <~ attr_get tf_adj;;
  adjs <~ lift (unpack adj);;
  logit <~ lift (predict_on_batch km
             (TensorIn x :: [seq TensorIn t | t <- adjs]
                ++ [:: IndexIn index]));;
  ret (if is_tensor logit then numpy logit else logit).

End Predict.
End SupervisedPredict.

(** ** What [build] of the supervised model stacks *)

Module SupervisedLayers.
Section Layers.
Context {B : Backend}.

Definition is_conv (l : SupervisedChebyNet.layer) : bool :=
  if l is SupervisedChebyNet.ChebyConvolution _ _ _ _ then true else false.

Definition is_dropout (l : SupervisedChebyNet.layer) : bool :=
  if l is SupervisedChebyNet.Dropout _ then true else false.

(** The layer is no convolution, or a convolution of order [k]. *)
Definition conv_order (k : nat) (l : SupervisedChebyNet.layer) : bool :=
  if l is SupervisedChebyNet.ChebyConvolution _ o _ _ then o == k else true.


End Layers.
End SupervisedLayers.

(** ** More objects of the two-node graph *)

Module Fixture.

(** A layer with [K = 2] and [alpha = 1/2], one with [alpha = 1], and a
    heap whose third tensor is the sum of the first two. *)
Definition layer : SSGC.SSGConv rat := {| SSGC.K := 2; SSGC.alpha := 1 / 2 |}.

Definition layer_one : SSGC.SSGConv rat := {| SSGC.K := 2; SSGC.alpha := 1 |}.

Definition heap3 : SSGC.heap rat 1 1 :=
  [:: 1%:M; 1%:M; 1 *: 1%:M + 1 *: 1%:M].

(** The TensorFlow adapter whose adjacency transform is [None]. *)
Definition plain_adapter : @GalleryChebyNet.GalleryModel Example.backend :=
  {| GalleryChebyNet.graph := Example.graph;
     GalleryChebyNet.backend := "tensorflow";
     GalleryChebyNet.device := "cpu:0";
     GalleryChebyNet.adj_transform := null_transform;
     GalleryChebyNet.attr_transform := null_transform;
     GalleryChebyNet.feature_inputs := None;
     GalleryChebyNet.structure_inputs := None;
     GalleryChebyNet.model := None |}.

(** The supervised model of order 2 after [build]. *)
Definition built : @SupervisedChebyNet.ChebyNet Example.backend :=
  (SupervisedChebyNet.build [:: 16%N] [:: "relu"] Example.half Example.half
     Example.half true (Example.supervised (Some Example.rate))).2.

(** A Keras model that answers with the number of its inputs. *)
Definition count_inputs (km : @SupervisedChebyNet.keras_model Example.backend)
    (inputs : seq (@tf_input Example.backend)) : result nat :=
  inr (size inputs).

(** A base class whose [predict] accepts every index set. *)
Definition accept (index : seq int)
    : pym (@SupervisedChebyNet.ChebyNet Example.backend) unit :=
  ret tt.

End Fixture.

(** * Lemmas and theorems *)

(** ** The SSGConv layer *)

Module SSGCFacts.
Import SSGC.
Section Layer.

Variable F : numFieldType.
Variables n d : nat.

Local Notation heap := (heap F n d).
Local Notation SSGConv := (SSGConv F).

(** One turn of the loop appends three tensors and writes none. *)
Lemma loop_bodyE (l : SSGConv) (adj : 'M[F]_n) (x x_out : ref) (h : heap) :
  (x_out < size h)%N ->
  loop_body l adj (x, x_out, h) =
    ((size h).+1, (size h).+2,
     h ++ [:: adj *m read h x;
              (1 - alpha l) *: (adj *m read h x);
              read h x_out + (1 - alpha l) *: (adj *m read h x)]).
Proof.
move=> lt_out; rewrite /loop_body /alloc /read /= !size_rcons.
rewrite !nth_rcons !size_rcons !ltnn !eqxx ltnS (ltnW lt_out) lt_out.
by rewrite -!cats1 -!catA.
Qed.

Lemma read_cat_old (h t : heap) (p : ref) :
  (p < size h)%N -> read (h ++ t) p = read h p.
Proof. by move=> lt_p; rewrite /read nth_cat lt_p. Qed.

Lemma read_cat_new (h t : heap) (p : ref) :
  read (h ++ t) (size h + p) = read t p.
Proof. by rewrite /read nth_cat ltnNge leq_addr /= addKn. Qed.

Lemma loop_invariant (l : SSGConv) (adj : 'M[F]_n) (h0 : heap) (x0 : ref)
    (i : nat) :
  (x0 < size h0)%N ->
  loop_inv l adj h0 x0 i (iter i (loop_body l adj) (x0, x0, h0)).
Proof.
move=> lt_x0; elim: i => [|i IH].
  split=> //=; first by rewrite expr0 scale1r mul1mx.
  by rewrite /ssgc_sum big_geq // addr0.
rewrite iterS; case: IH.
case: (iter i _ _) => [[x x_out] h] /= le_h frame_h val_x val_out lt_out _.
rewrite (loop_bodyE _ _ _ lt_out) val_x val_out /=.
have step : (1 - alpha l) *: (adj *m ((1 - alpha l) ^+ i *: (mxpow adj i *m read h0 x0)))
            = (1 - alpha l) ^+ i.+1 *: (mxpow adj i.+1 *m read h0 x0).
  by rewrite -scalemxAr scalerA -exprS /= mulmxA.
split=> /=.
- by rewrite size_cat; apply: leq_trans le_h (leq_addr _ _).
- move=> p lt_p; rewrite read_cat_old ?frame_h //.
  exact: leq_trans lt_p le_h.
- by rewrite -[(size h).+1]addn1 read_cat_new.
- rewrite -[(size h).+2]addn2 read_cat_new /read /= step.
  by rewrite /ssgc_sum [in RHS]big_nat_recr //= addrA.
- by rewrite size_cat /= addn3.
- by rewrite size_cat /= addn3 ltnW.
Qed.

(** [forward] on a heap that holds [x]: the result is a fresh tensor
    with the propagated value, and no tensor of the caller is written. *)
Lemma forward_spec (l : SSGConv) (adj : 'M[F]_n) (h : heap) (x : ref) :
  (x < size h)%N ->
  [/\ read (forward l x adj h).2 (forward l x adj h).1 =
        alpha l *: read h x +
        (K l)%:~R^-1 *: ssgc_sum (alpha l) adj (read h x) (range (K l)),
      forall p, (p < size h)%N -> read (forward l x adj h).2 p = read h p &
      (size h <= (forward l x adj h).1)%N].
Proof.
move=> lt_x; rewrite /forward.
case: (loop_invariant l adj (range (K l)) lt_x).
case: (iter _ _ _) => [[x1 x_out] h1] /= le_h frame_h _ val_out lt_out _.
rewrite /alloc /write /= !size_rcons.
have lt_x1 : (x < size h1)%N by exact: leq_trans lt_x le_h.
have rd_out : read (rcons h1 ((K l)%:~R^-1 *: read h1 x_out)) x
              = read h x.
  by rewrite /read nth_rcons lt_x1 -/(read h1 x) frame_h.
rewrite rd_out; split=> //.
- rewrite /read nth_set_nth /= eqxx !nth_rcons !size_rcons ltnSn !ltnn !eqxx.
  by rewrite -/(read h1 x_out) -/(read h x) val_out addrC.
- move=> p lt_p; have lt_p1 : (p < size h1)%N by exact: leq_trans lt_p le_h.
  rewrite /read nth_set_nth /= (ltn_eqF lt_p1) !nth_rcons !size_rcons.
  by rewrite ltnS (ltnW lt_p1) lt_p1 -/(read h1 p) frame_h.
Qed.


(** C9. The constructor of [SSGConv] raises [AssertionError] unless
    [K > 0]; on a layer it has built, [forward(x, adj)] returns
    alpha x + (1/K) (x + sum for k = 1..K of (1 - alpha)^k (adj^k x)),
    in a tensor of its own: every tensor the heap held before the call,
    [x] among them, is still there with its value, and [adj] and the
    layer are only read. *)
Theorem ssgconv_forward (K0 : int) (a : F) (adj : 'M[F]_n) (h : heap)
    (x : ref) :
  (x < size h)%N ->
  match init K0 a with
  | inl e => e = AssertionError /\ K0 <= 0
  | inr l =>
      [/\ 0 < K0, K l = K0 & alpha l = a] /\
      let r := (forward l x adj h).1 in
      let h' := (forward l x adj h).2 in
      [/\ read h' r =
            a *: read h x +
            (1 / K0%:~R) *:
              (read h x +
               \sum_(1 <= k < (absz K0).+1)
                  (1 - a) ^+ k *: (mxpow adj k *m read h x)),
          forall p, (p < size h)%N -> read h' p = read h p
        & (size h <= r)%N]
  end.
Proof.
move=> lt_x; rewrite /init; case: ifPn => [K0_gt0 | ]; last first.
  by rewrite -leNgt.
split=> //=; case: (forward_spec {| K := K0; alpha := a |} adj lt_x) => /=.
move=> -> frame fresh; split=> //; rewrite div1r /ssgc_sum.
by case: K0 K0_gt0 {frame fresh}.
Qed.

End Layer.

(** The layer with [K = 2] and [alpha = 1/2] on the heap of one tensor. *)
Lemma ssgconv_forward_witness :
  (0 < size Example.ssgc_heap)%N /\
  match init 2 (1 / 2 : rat) with
  | inl e => e = AssertionError /\ (2 : int) <= 0
  | inr l =>
      [/\ (0 : int) < 2, K l = 2 & alpha l = 1 / 2] /\
      let r := (forward l 0 1%:M Example.ssgc_heap).1 in
      let h' := (forward l 0 1%:M Example.ssgc_heap).2 in
      [/\ read h' r =
            (1 / 2) *: read Example.ssgc_heap 0 +
            (1 / 2%:~R) *:
              (read Example.ssgc_heap 0 +
               \sum_(1 <= k < (absz 2).+1)
                  (1 - 1 / 2) ^+ k *:
                    (mxpow 1%:M k *m read Example.ssgc_heap 0)),
          forall p, (p < size Example.ssgc_heap)%N ->
                    read h' p = read Example.ssgc_heap p
        & (size Example.ssgc_heap <= r)%N]
  end.
Proof.
split; first by [].
exact: (@ssgconv_forward rat 1 1 2 (1 / 2) 1%:M Example.ssgc_heap 0 isT).
Defined.

End SSGCFacts.

(** ** The Chebyshev basis transform *)

Section ChebyshevFacts.
Context {B : Backend}.

Lemma size_cheby_basis (rate : scalar) (K : nat) (A : array) :
  size (cheby_basis rate K A) = K.+1.
Proof. by rewrite /cheby_basis size_map size_iota. Qed.

Lemma nth_cheby_basis (x0 : array) (rate : scalar) (K : nat) (A : array)
    (k : nat) :
  (k <= K)%N ->
  nth x0 (cheby_basis rate K A) k =
    (cheby_pair (eye_like A) (scaled_laplacian rate A) k).1.
Proof.
move=> le_k; rewrite /cheby_basis (nth_map 0%N) ?size_iota ?ltnS //.
by rewrite nth_iota ?ltnS // add0n.
Qed.

Lemma cheby_pair_next (I Lt : array) (k : nat) :
  (cheby_pair I Lt k.+1).1 = (cheby_pair I Lt k).2.
Proof. by rewrite /=; case: (cheby_pair I Lt k). Qed.

Lemma cheby_pair_rec (I Lt : array) (k : nat) :
  (cheby_pair I Lt k.+2).1 =
    chebyshev_recurrence (cheby_pair I Lt k.+1).1 (cheby_pair I Lt k).1 Lt.
Proof. by rewrite /=; case: (cheby_pair I Lt k). Qed.

(** The transform registered as [cheby_basis], resolved with an explicit
    order, computes the basis of that order. *)
Lemma get_cheby_basis (reg : registry) (pname : string) (K0 K : nat)
    (rate : scalar) :
  assoc "cheby_basis" reg = Some (cheby_class pname K0 rate) ->
  get reg (WithParams "cheby_basis" [:: (pname, K)]) =
    inr {| tr_name := "cheby_basis";
           tr_params := [:: (pname, K); (pname, K0)];
           tr_call := fun A => Many (cheby_basis rate K A) |}.
Proof. by move=> /= -> /=; rewrite /instantiate /= String.eqb_refl. Qed.

End ChebyshevFacts.

(** C1. On an [N] x [N] adjacency matrix and for an order [K >= 1] the
    Chebyshev basis transform returns [K + 1] matrices of [N] rows and
    [N] columns: the identity, the scaled Laplacian
    (2/lambda_max) L - I, and then 2 L~ T(k-1) - T(k-2) for k from 2 to
    K; three matrices for [K = 2]. [chebyshev_polynomials] with
    [order = K] and the transform the registry resolves [cheby_basis] to
    return this list. *)
Theorem cheby_basis_spec (F : numFieldType) (N : nat)
    (lap : F -> 'M[F]_N -> 'M[F]_N) (lmax : 'M[F]_N -> F)
    (rate : F) (K : nat) (A : 'M[F]_N) :
  A^T = A -> (0 < K)%N ->
  let L : 'M[F]_N := lap rate A in
  let Lt : 'M[F]_N := (2 / lmax L) *: L - 1%:M in
  let Ts : seq 'M[F]_N := @cheby_basis (mx_backend lap lmax) rate K A in
  [/\ size Ts = K.+1,
      nth 0 Ts 0 = 1%:M,
      nth 0 Ts 1 = Lt,
      forall k, (1 < k <= K)%N ->
        nth 0 Ts k = 2 *: (Lt *m nth 0 Ts k.-1) - nth 0 Ts k.-2
    & K = 2%N -> size Ts = 3%N] /\
  @chebyshev_polynomials (mx_backend lap lmax) A rate K = Ts /\
  forall (reg : @registry (mx_backend lap lmax)) (pname : string) (K0 : nat),
    assoc "cheby_basis" reg
      = Some (@cheby_class (mx_backend lap lmax) pname K0 rate) ->
    exists2 t, get reg (WithParams "cheby_basis" [:: (pname, K)]) = inr t
             & tr_call t A = Many Ts.
Proof.
move=> _ K_gt0 L Lt Ts; split; last split=> //.
  have sz : size Ts = K.+1 by exact: (@size_cheby_basis (mx_backend lap lmax)).
  have nthE k : (k <= K)%N ->
      nth 0 Ts k = (@cheby_pair (mx_backend lap lmax) 1%:M Lt k).1.
    exact: (@nth_cheby_basis (mx_backend lap lmax)).
  split; [exact: sz | by rewrite nthE | by rewrite nthE | | ].
  - case=> [|[|k]] // /andP [_ le_k].
    have le_k1 : (k.+1 <= K)%N by exact: ltnW.
    have le_k0 : (k <= K)%N by exact: ltnW.
    rewrite !nthE //.
    exact: (@cheby_pair_rec (mx_backend lap lmax)).
  - by move=> K2; rewrite sz K2.
move=> reg pname K0 in_reg; rewrite (get_cheby_basis K in_reg).
by eexists; first reflexivity.
Qed.

(** The identity matrix of size 2 at order 2. *)
Lemma cheby_basis_spec_witness :
  ((1%:M : 'M[rat]_2)^T = 1%:M) /\ (0 < 2)%N /\
  size (@cheby_basis Example.backend (-(1 / 2)) 2 Example.eye) = 3%N.
Proof.
split; first exact: trmx1.
split; first by [].
have [[sz _ _ _ _] _] :=
  @cheby_basis_spec rat 2 (fun _ A => 1%:M - A) (fun _ => 2) (-(1 / 2)) 2
    1%:M (trmx1 _ _) isT.
exact: sz.
Defined.

(** ** Indexing and the registry *)

Example np_take_wraps :
  np_take [:: 5; 6; 7]%N [:: -1; 0; 2; -3] = inr [:: 7; 5; 7; 5]%N.
Proof. by []. Qed.

Example np_take_out_of_bounds :
  np_take [:: 5; 6; 7]%N [:: 0; 3] = inl IndexError.
Proof. by []. Qed.

Example setitem_overwrites :
  assoc "A" (setitem "A" 2%N (setitem "X" 1%N (setitem "A" 0%N [::])))
  = Some 2%N.
Proof. by []. Qed.


Lemma np_take_in_range (a : seq nat) (index : seq int) :
  all (in_range a) index ->
  np_take a index = inr [seq nth 0%N a `|i| | i <- index].
Proof.
elim: index => [|i index IH] //= /andP [i_ok /IH ->].
by case: i i_ok => [k|k] //=; rewrite /in_range /= ltz_nat => ->.
Qed.

Section RegistryFacts.
Context {B : Backend}.

(** A transform resolved by name with explicit parameters exposes each
    of them as an attribute. *)
Lemma getattr_get (reg : registry) (name : string) (kw : kwargs)
    (t : Transform) (p : string) (v : nat) :
  get reg (WithParams name kw) = inr t ->
  assoc p kw = Some v -> getattr t p = inr v.
Proof.
rewrite /get; case: (assoc name reg) => [c|] // [<-] {t}.
rewrite /getattr /instantiate /=.
by elim: kw => [|[k w] kw IH] //=; case: (String.eqb p k) => [[->]|].
Qed.

End RegistryFacts.

(** ** The PyTorch trainer *)

Module TorchFacts.
Import TorchChebyNet.
Section Trainer.
Context {B : Backend}.

Lemma data_step_graph (reg : registry) (a b : transform_arg) (t : Trainer) :
  graph (data_step reg a b t).2 = graph t.
Proof.
rewrite /data_step /bind /reads /lift /=.
by case: (get reg a) => [e|ta] //=; case: (get reg b).
Qed.

Lemma data_step_backend (reg : registry) (a b : transform_arg)
    (t : Trainer) :
  backend (data_step reg a b t).2 = backend t.
Proof.
rewrite /data_step /bind /reads /lift /=.
by case: (get reg a) => [e|ta] //=; case: (get reg b).
Qed.

(** When both transforms resolve, [data_step] caches the tensors of the
    transformed matrices under [X] and [A]. *)
Lemma data_stepE (reg : registry) (a b : transform_arg) (t : Trainer)
    (ta tx : Transform) :
  get reg a = inr ta -> get reg b = inr tx ->
  let X := astensors (data_device t) (tr_call tx (attr_matrix (graph t))) in
  let A := astensors (data_device t) (tr_call ta (adj_matrix (graph t))) in
  [/\ (data_step reg a b t).1 = inr tt,
      assoc "X" (cache (data_step reg a b t).2) = Some X
    & assoc "A" (cache (data_step reg a b t).2) = Some A].
Proof.
by move=> get_a get_b; rewrite /data_step /bind /reads /lift /= get_a get_b.
Qed.

(** [model_step] gives the constructor [len(self.cache.A)] as [K]. *)
Lemma model_stepE (mreg : model_registry) (hids : seq nat)
    (acts : seq string) (dropout weight_decay lr : scalar) (bias : bool)
    (t : Trainer) (A : pyval tensor)
    (ctor : hyper scalar -> result network) :
  assoc "A" (cache t) = Some A ->
  get_model mreg "ChebyNet" (backend t) = inr ctor ->
  model_step mreg hids acts dropout weight_decay lr bias t =
    (ctor (Hyper (num_node_attrs (graph t)) (num_node_classes (graph t))
             hids acts dropout (py_len A) weight_decay lr bias), t).
Proof.
move=> in_cache in_reg.
by rewrite /model_step /bind /cache_get /reads /lift in_cache in_reg.
Qed.

(** No name of the package of PyTorch models is [ChebyNet], unless the
    starred import brings one. *)
Lemma find_model_registered (parinorm : seq string)
    (ctor : string -> hyper scalar -> result network) (backend : string) :
  ~~ has (String.eqb "ChebyNet") parinorm ->
  find_model (PyTorchModels.registered parinorm ctor) "ChebyNet" backend
    = None.
Proof.
rewrite /PyTorchModels.registered /PyTorchModels.exports !map_cat /=.
by elim: parinorm => [|n ns IH] //= /norP [/negPf -> /IH].
Qed.

End Trainer.
End TorchFacts.

(** ** The TensorFlow adapter *)

Module GalleryFacts.
Import GalleryChebyNet.
Section Adapter.
Context {B : Backend}.

Lemma process_step_graph (m : GalleryModel) :
  graph (process_step m).2 = graph m.
Proof. by []. Qed.

(** The decorator stops [build] before its body. *)
Lemma gallery_build_mismatch (hiddens : seq nat) (activations : seq string)
    (dropout weight_decay lr : scalar) (use_bias : bool) (m : GalleryModel) :
  size hiddens != size activations ->
  build hiddens activations dropout weight_decay lr use_bias m =
    (inl ConfigurationError, m).
Proof. by rewrite /build /equal /= andbT eq_sym => /negPf ->. Qed.

Lemma build_other_backend (hiddens : seq nat) (activations : seq string)
    (dropout weight_decay lr : scalar) (use_bias : bool) (m : GalleryModel) :
  size hiddens = size activations ->
  String.eqb (backend m) "tensorflow" = false ->
  build hiddens activations dropout weight_decay lr use_bias m =
    (inl NotImplementedError, m).
Proof.
move=> eq_sz other; rewrite /build /equal /= andbT eq_sz eqxx.
by rewrite /bind /reads /= other.
Qed.

Lemma build_tensorflow (hiddens : seq nat) (activations : seq string)
    (dropout weight_decay lr : scalar) (use_bias : bool) (m : GalleryModel)
    (k : nat) :
  size hiddens = size activations ->
  backend m = "tensorflow" ->
  getattr (adj_transform m) "order" = inr k ->
  build hiddens activations dropout weight_decay lr use_bias m =
    match tfChebyNet (TfHyper (num_node_attrs (graph m))
                        (num_node_classes (graph m)) hiddens activations
                        dropout weight_decay k lr use_bias) with
    | inr n => (inr tt, set_model n m)
    | inl e => (inl e, m)
    end.
Proof.
move=> eq_sz is_tf has_order; rewrite /build /equal /= andbT eq_sz eqxx.
rewrite /bind /reads /lift /= is_tf /= has_order.
by case: (tfChebyNet _).
Qed.

Lemma initE (reg : registry) (g : Graph) (a b : transform_arg)
    (device backend : string) (ta tx : Transform) :
  get reg a = inr ta -> get reg b = inr tx ->
  init reg g a b device backend =
    inr {| graph := g; backend := backend; device := device;
           adj_transform := ta; attr_transform := tx;
           feature_inputs :=
             Some (astensors device (tr_call tx (attr_matrix g)));
           structure_inputs :=
             Some (astensors device (tr_call ta (adj_matrix g)));
           model := None |}.
Proof. by move=> get_a get_b; rewrite /init get_a get_b. Qed.

End Adapter.
End GalleryFacts.

(** ** The supervised TensorFlow model *)

Module SupervisedFacts.
Import SupervisedChebyNet.
Section Model.
Context {B : Backend}.

(** The assertion stops [build] before any placeholder is created. *)
Lemma supervised_build_mismatch (hiddens : seq nat) (activations : seq string)
    (dropout lr l2_norm : scalar) (ensure_shape : bool) (m : ChebyNet) :
  size hiddens != size activations ->
  build hiddens activations dropout lr l2_norm ensure_shape m =
    (inl AssertionError, m).
Proof. by rewrite /build => ->. Qed.

(** With lists of one length [build] creates [order + 3] placeholders,
    the inputs of the compiled model: the features, [order + 1] sparse
    adjacency matrices and the index. *)
Lemma build_inputs (hiddens : seq nat) (activations : seq string)
    (dropout lr l2_norm : scalar) (ensure_shape : bool) (m : ChebyNet) :
  size hiddens = size activations ->
  let r := build hiddens activations dropout lr l2_norm ensure_shape m in
  exists2 km,
    [/\ r.1 = inr tt, model r.2 = Some km,
        tf_x r.2 = tf_x m, tf_adj r.2 = tf_adj m & labels r.2 = labels m]
  & [/\ size (km_inputs km) = (order m).+3,
        size [seq i <- km_inputs km | in_sparse i] = (order m).+1
      & allocated r.2 = (allocated m + (order m).+3)%N].
Proof.
move=> eq_sz; rewrite /build eq_sz eqxx /=.
eexists; first by split; reflexivity.
split=> /=.
- by rewrite size_cat size_map size_iota /= addn1.
- rewrite filter_cat /= cats0 filter_map size_map.
  by rewrite (@eq_in_filter _ _ predT) ?filter_predT ?size_iota.
- by rewrite size_cat size_map size_iota /= addn1.
Qed.

(** With a normalisation rate the constructor keeps the tensors of the
    [order + 1] Chebyshev matrices. *)
Lemma init_tf_adj (nodes features classes : nat) (adj x : array)
    (lab : seq nat) (k : nat) (rate : scalar) (norm_x_type device : string) :
  let m := init nodes features classes adj x lab k (Some rate)
             norm_x_type device in
  [/\ order m = k, labels m = lab,
      exists x', tf_x m = Some (One x')
    & exists2 l, tf_adj m = Some (Many l) & size l = k.+1].
Proof.
rewrite /init /preprocess; case: (super_preprocess adj x) => adj' x' /=.
split=> //; first by eexists.
exists [seq astensor device t | t <- cheby_basis rate k adj'] => //.
by rewrite size_map size_cheby_basis.
Qed.

End Model.

Example supervised_input_names :
  omap (fun km => [seq in_name i | i <- km_inputs km])
    (model (build [:: 16%N] [:: "relu"] Example.half Example.half
              Example.half true (Example.supervised (Some Example.rate))).2)
  = Some [:: "features"; "adj_matrix_0"; "adj_matrix_1"; "adj_matrix_2";
             "index"].
Proof. by []. Qed.

End SupervisedFacts.

(** ** The claims about the adapters *)

(** C5. The data step of the PyTorch trainer and the process step of the
    TensorFlow adapter leave the adjacency matrix, the attribute matrix
    and the label vector of the graph as they were, whatever transforms
    are asked for and also when resolving them fails: the transforms are
    applied to the matrices and their results go to the cache. *)
Theorem data_step_frame {B : Backend} (reg : registry)
    (adj_transform attr_transform : transform_arg)
    (t : TorchChebyNet.Trainer) (m : GalleryChebyNet.GalleryModel) :
  let t' := (TorchChebyNet.data_step reg adj_transform attr_transform t).2 in
  let m' := (GalleryChebyNet.process_step m).2 in
  [/\ adj_matrix (TorchChebyNet.graph t') = adj_matrix (TorchChebyNet.graph t),
      attr_matrix (TorchChebyNet.graph t')
        = attr_matrix (TorchChebyNet.graph t)
    & label (TorchChebyNet.graph t') = label (TorchChebyNet.graph t)] /\
  [/\ adj_matrix (GalleryChebyNet.graph m')
        = adj_matrix (GalleryChebyNet.graph m),
      attr_matrix (GalleryChebyNet.graph m')
        = attr_matrix (GalleryChebyNet.graph m)
    & label (GalleryChebyNet.graph m') = label (GalleryChebyNet.graph m)].
Proof. by rewrite /= TorchFacts.data_step_graph. Qed.

(** C8. [model_step] gives the network constructor [K = len(cache.A)].
    After [data_step] with the [cheby_basis] transform of order [k] the
    cache holds [k + 1] adjacency tensors, so the constructor receives
    [k + 1]; with the default transform, of order 2, it receives 3. *)
Theorem model_step_K {B : Backend} (reg : registry)
    (mreg : TorchChebyNet.model_registry)
    (ctor : hyper scalar -> result network) (t : TorchChebyNet.Trainer)
    (k K0 : nat) (rate : scalar) (attr_transform : transform_arg)
    (tx : Transform) (hids : seq nat) (acts : seq string)
    (dropout weight_decay lr : scalar) (bias : bool) :
  assoc "cheby_basis" reg = Some (cheby_class "K" K0 rate) ->
  get reg attr_transform = inr tx ->
  TorchChebyNet.get_model mreg "ChebyNet" (TorchChebyNet.backend t)
    = inr ctor ->
  let args K :=
    Hyper (num_node_attrs (TorchChebyNet.graph t))
      (num_node_classes (TorchChebyNet.graph t))
      hids acts dropout K weight_decay lr bias in
  let step := TorchChebyNet.model_step mreg hids acts dropout weight_decay
                lr bias in
  let run a := TorchChebyNet.data_step reg a attr_transform t in
  let cheby := WithParams "cheby_basis" [:: ("K", k)] in
  [/\ forall A, assoc "A" (TorchChebyNet.cache t) = Some A ->
        step t = (ctor (args (py_len A)), t),
      (run cheby).1 = inr tt,
      exists2 A, assoc "A" (TorchChebyNet.cache (run cheby).2) = Some (Many A)
               & size A = k.+1,
      step (run cheby).2 = (ctor (args k.+1), (run cheby).2)
    & step (run TorchChebyNet.default_adj_transform).2
      = (ctor (args 3%N), (run TorchChebyNet.default_adj_transform).2)].
Proof.
move=> in_reg get_attr in_mreg args step run cheby.
have stepE (j : nat) :
    let a := WithParams "cheby_basis" [:: ("K", j)] in
    [/\ (run a).1 = inr tt,
        exists2 A, assoc "A" (TorchChebyNet.cache (run a).2) = Some (Many A)
                 & size A = j.+1
      & step (run a).2 = (ctor (args j.+1), (run a).2)].
  move=> a; have get_a := get_cheby_basis j in_reg.
  have [ok _ in_cache] := TorchFacts.data_stepE t get_a get_attr.
  have szA : size [seq astensor (TorchChebyNet.data_device t) M
                  | M <- cheby_basis rate j
                           (adj_matrix (TorchChebyNet.graph t))] = j.+1.
    by rewrite size_map size_cheby_basis.
  split=> //; first by eexists; [exact: in_cache | exact: szA].
  have in_mreg' : TorchChebyNet.get_model mreg "ChebyNet"
                    (TorchChebyNet.backend (run a).2) = inr ctor.
    by rewrite TorchFacts.data_step_backend.
  rewrite /step (TorchFacts.model_stepE _ _ _ _ _ _ in_cache in_mreg').
  rewrite [tr_call _ _]/= /astensors /pymap /py_len szA.
  by rewrite /args TorchFacts.data_step_graph.
have [ok in_cache stepk] := stepE k.
have [_ _ step2] := stepE 2%N.
split=> // A in_cache0.
exact: TorchFacts.model_stepE.
Qed.

(** The trainer of the two-node graph and order 2. *)
Lemma model_step_K_witness :
  (TorchChebyNet.model_step Example.torch_models [:: 16%N] [:: "relu"]
     (1 / 2) (1 / 2) (1 / 2) false Example.trained).1
  = inr (inl (Hyper 2 2 [:: 16%N] [:: "relu"] (1 / 2 : rat) 3 (1 / 2)
                (1 / 2) false)).
Proof.
have [_ _ _ _ ->] :=
  @model_step_K Example.backend Example.torch_registry Example.torch_models
    Example.torch_ctor Example.trainer 2 2 (-(1 / 2)) NoTransform
    null_transform [:: 16%N] [:: "relu"] (1 / 2) (1 / 2) (1 / 2) false
    (erefl _) (erefl _) (erefl _).
reflexivity.
Defined.

(** C4. For an index set within [0, N) the full-batch loader of the
    PyTorch trainer and the full-batch sequence of the TensorFlow adapter
    hold one item: the cached attribute tensor, every cached adjacency
    tensor and the index set, with the labels of the graph at these
    indices in the order given. The call leaves the trainer and its
    cache as they were, so a repeated call returns the same sequence. *)
Theorem full_batch_loader {B : Backend} (t : TorchChebyNet.Trainer)
    (m : GalleryChebyNet.GalleryModel) (index : seq int)
    (X X' : pyval tensor) (As As' : seq tensor) :
  assoc "X" (TorchChebyNet.cache t) = Some X ->
  assoc "A" (TorchChebyNet.cache t) = Some (Many As) ->
  GalleryChebyNet.feature_inputs m = Some X' ->
  GalleryChebyNet.structure_inputs m = Some (Many As') ->
  all (in_range (label (TorchChebyNet.graph t))) index ->
  all (in_range (label (GalleryChebyNet.graph m))) index ->
  (exists2 s, TorchChebyNet.train_loader index t = (inr s, t)
     & fb_items s =
         [:: (X :: [seq One a | a <- As],
              [seq nth 0%N (label (TorchChebyNet.graph t)) `|i| | i <- index],
              index)]) /\
  (exists2 s, GalleryChebyNet.train_sequence index m = (inr s, m)
     & fbn_items s =
         [:: (TensorIn X' :: [seq TensorIn (One a) | a <- As']
                ++ [:: IndexIn index],
              [seq nth 0%N (label (GalleryChebyNet.graph m)) `|i|
              | i <- index])]) /\
  TorchChebyNet.train_loader index (TorchChebyNet.train_loader index t).2
    = TorchChebyNet.train_loader index t /\
  GalleryChebyNet.train_sequence index
      (GalleryChebyNet.train_sequence index m).2
    = GalleryChebyNet.train_sequence index m.
Proof.
move=> in_X in_A in_F in_S /np_take_in_range take_t /np_take_in_range take_m.
have loaderE : TorchChebyNet.train_loader index t
    = (inr {| fb_x := X :: [seq One a | a <- As];
              fb_y := [seq nth 0%N (label (TorchChebyNet.graph t)) `|i|
                      | i <- index];
              fb_out_index := index;
              fb_device := TorchChebyNet.data_device t |}, t).
  rewrite /TorchChebyNet.train_loader /bind /reads /lift take_t.
  by rewrite /TorchChebyNet.cache_get in_X in_A.
have sequenceE : GalleryChebyNet.train_sequence index m
    = (inr {| fbn_inputs := TensorIn X' :: [seq TensorIn (One a) | a <- As']
                              ++ [:: IndexIn index];
              fbn_labels := [seq nth 0%N (label (GalleryChebyNet.graph m)) `|i|
                            | i <- index];
              fbn_device := Some (GalleryChebyNet.device m) |}, m).
  rewrite /GalleryChebyNet.train_sequence /bind /reads /lift take_m.
  by rewrite /GalleryChebyNet.attr_get in_F in_S /= -map_comp.
split; first by rewrite loaderE; eexists; reflexivity.
split; first by rewrite sequenceE; eexists; reflexivity.
by split; [rewrite loaderE; exact: loaderE | rewrite sequenceE; exact: sequenceE].
Qed.

(** The two trainers of the two-node graph and the index set 1, 0. *)
Lemma full_batch_loader_witness :
  exists2 s,
    TorchChebyNet.train_loader [:: 1; 0] Example.trained
      = (inr s, Example.trained)
  & fb_items s =
      [:: ([:: One Example.eye;
               One (nth Example.eye
                      (@cheby_basis Example.backend (-(1 / 2)) 2 Example.eye) 0);
               One (nth Example.eye
                      (@cheby_basis Example.backend (-(1 / 2)) 2 Example.eye) 1);
               One (nth Example.eye
                      (@cheby_basis Example.backend (-(1 / 2)) 2 Example.eye) 2)],
           [:: 1%N; 0%N], [:: 1; 0])].
Proof.
have [[s loaded items] _] :=
  @full_batch_loader Example.backend Example.trained Example.processed
    [:: 1; 0] _ _ _ _ (erefl _) (erefl _) (erefl _) (erefl _) isT isT.
by exists s; [exact: loaded | exact: items].
Defined.

(** C7. A transform the registry resolves with explicit parameters
    exposes each of them as an attribute. The TensorFlow adapter built
    with the [cheby_basis] transform of order [k] holds a transform whose
    [order] is [k], and [build] gives this order to the constructor of
    the network; with the transform named without parameters the order
    is the default of the registered class. *)
Theorem transform_order_exposed {B : Backend} (reg : registry) (g : Graph)
    (k K0 : nat) (rate : scalar) (attr_transform : transform_arg)
    (tx : Transform) (device : string) (hiddens : seq nat)
    (activations : seq string) (dropout weight_decay lr : scalar)
    (use_bias : bool) :
  assoc "cheby_basis" reg = Some (cheby_class "order" K0 rate) ->
  get reg attr_transform = inr tx ->
  size hiddens = size activations ->
  let args o :=
    TfHyper (num_node_attrs g) (num_node_classes g) hiddens activations
      dropout weight_decay o lr use_bias in
  let built o m :=
    GalleryChebyNet.build hiddens activations dropout weight_decay lr
      use_bias m =
    match tfChebyNet (args o) with
    | inr n => (inr tt, GalleryChebyNet.set_model n m)
    | inl e => (inl e, m)
    end in
  [/\ forall name kw t p v,
        get reg (WithParams name kw) = inr t ->
        assoc p kw = Some v -> getattr t p = inr v,
      exists2 m,
        GalleryChebyNet.init reg g (WithParams "cheby_basis" [:: ("order", k)])
          attr_transform device "tensorflow" = inr m
      & getattr (GalleryChebyNet.adj_transform m) "order" = inr k
        /\ built k m
    & exists2 m,
        GalleryChebyNet.init reg g GalleryChebyNet.default_adj_transform
          attr_transform device "tensorflow" = inr m
      & getattr (GalleryChebyNet.adj_transform m) "order" = inr K0
        /\ built K0 m].
Proof.
move=> in_reg get_attr eq_sz args built; split.
- by move=> name kw t p v; exact: getattr_get.
- have get_adj := get_cheby_basis k in_reg.
  eexists; first exact: (GalleryFacts.initE _ _ _ get_adj get_attr).
  by split=> //; rewrite /built (@GalleryFacts.build_tensorflow _ _ _ _ _ _ _ _ k).
- have get_adj :
    get reg GalleryChebyNet.default_adj_transform
    = inr (instantiate "cheby_basis" (cheby_class "order" K0 rate) [::]).
    by rewrite /= in_reg.
  eexists; first exact: (GalleryFacts.initE _ _ _ get_adj get_attr).
  by split=> //; rewrite /built (@GalleryFacts.build_tensorflow _ _ _ _ _ _ _ _ K0).
Qed.

(** The adapter of the two-node graph with the transform of order 3. *)
Lemma transform_order_exposed_witness :
  exists2 m,
    GalleryChebyNet.init Example.tf_registry Example.graph
      (WithParams "cheby_basis" [:: ("order", 3%N)]) NoTransform "cpu:0"
      "tensorflow" = inr m
  & getattr (GalleryChebyNet.adj_transform m) "order" = inr 3%N.
Proof.
have [_ [m made [has_order _]] _] :=
  @transform_order_exposed Example.backend Example.tf_registry Example.graph
    3 2 (-(1 / 2)) NoTransform null_transform "cpu:0" [:: 16%N] [:: "relu"]
    (1 / 2) (1 / 2) (1 / 2) false (erefl _) (erefl _) (erefl _).
by exists m.
Defined.

(** C2, as the code has it. When [hiddens] and [activations] differ in
    length, [build] of the supervised model fails with [AssertionError]
    and [build] of the TensorFlow adapter is stopped by its decorator
    with [ConfigurationError]; both leave the object as it was: no
    placeholder or tensor is created and no model is set. *)
Theorem build_length_mismatch {B : Backend} (hiddens : seq nat)
    (activations : seq string) (dropout weight_decay lr l2_norm : scalar)
    (ensure_shape use_bias : bool) (m : SupervisedChebyNet.ChebyNet)
    (g : GalleryChebyNet.GalleryModel) :
  size hiddens != size activations ->
  SupervisedChebyNet.build hiddens activations dropout lr l2_norm
    ensure_shape m = (inl AssertionError, m) /\
  GalleryChebyNet.build hiddens activations dropout weight_decay lr use_bias g
    = (inl ConfigurationError, g).
Proof.
move=> neq_sz; split; first exact: SupervisedFacts.supervised_build_mismatch.
exact: GalleryFacts.gallery_build_mismatch.
Qed.

(** Two hidden layers and one activation. *)
Lemma build_length_mismatch_witness :
  SupervisedChebyNet.build [:: 16%N; 8%N] [:: "relu"] Example.half Example.half
    Example.half true (Example.supervised (Some Example.rate))
  = (inl AssertionError, Example.supervised (Some Example.rate)).
Proof.
exact: (proj1 (@build_length_mismatch Example.backend [:: 16%N; 8%N]
                 [:: "relu"] Example.half Example.half Example.half Example.half true false
                 (Example.supervised (Some Example.rate))
                 (Example.adapter "tensorflow") isT)).
Defined.

(** C2 fails on the supervised model: with [hiddens = [16, 8]] and
    [activations = ['relu']] its [build] raises [AssertionError], not
    [ConfigurationError]. *)
Lemma build_raises_assertion_error :
  (SupervisedChebyNet.build [:: 16%N; 8%N] [:: "relu"] Example.half Example.half
     Example.half true (Example.supervised (Some Example.rate))).1
  = inl AssertionError /\
  (SupervisedChebyNet.build [:: 16%N; 8%N] [:: "relu"] Example.half Example.half
     Example.half true (Example.supervised (Some Example.rate))).1
  <> inl ConfigurationError.
Proof. by []. Qed.

(** C3, as the code has it. [get_model] fails with [ModelNotFoundError]
    on a pair of a name and a backend that is not registered, and
    [model_step] of the PyTorch trainer passes this on when no ChebyNet
    is registered for its backend; [build] of the TensorFlow adapter
    raises [NotImplementedError] under any backend but [tensorflow].
    Both leave the object as it was. *)
Theorem unregistered_model {B : Backend}
    (mreg : TorchChebyNet.model_registry) (t : TorchChebyNet.Trainer)
    (A : pyval tensor) (hids : seq nat) (acts : seq string)
    (dropout weight_decay lr : scalar) (bias : bool)
    (g : GalleryChebyNet.GalleryModel) :
  assoc "A" (TorchChebyNet.cache t) = Some A ->
  TorchChebyNet.find_model mreg "ChebyNet" (TorchChebyNet.backend t) = None ->
  size hids = size acts ->
  String.eqb (GalleryChebyNet.backend g) "tensorflow" = false ->
  [/\ forall name backend,
        TorchChebyNet.find_model mreg name backend = None ->
        TorchChebyNet.get_model mreg name backend = inl ModelNotFoundError,
      TorchChebyNet.model_step mreg hids acts dropout weight_decay lr bias t
        = (inl ModelNotFoundError, t)
    & GalleryChebyNet.build hids acts dropout weight_decay lr bias g
        = (inl NotImplementedError, g)].
Proof.
move=> in_cache not_reg eq_sz other; split.
- by move=> name backend; rewrite /TorchChebyNet.get_model => ->.
- rewrite /TorchChebyNet.model_step /bind /TorchChebyNet.cache_get in_cache.
  by rewrite /reads /lift /TorchChebyNet.get_model not_reg.
- exact: GalleryFacts.build_other_backend.
Qed.

(** The trained trainer with the models of the PyTorch package, and the
    adapter under the backend flag [pytorch]. *)
Lemma unregistered_model_witness :
  TorchChebyNet.model_step Example.package [:: 16%N] [:: "relu"]
    Example.half Example.half Example.half false Example.trained
  = (inl ModelNotFoundError, Example.trained) /\
  GalleryChebyNet.build [:: 16%N] [:: "relu"] Example.half Example.half
    Example.half false (Example.adapter "pytorch")
  = (inl NotImplementedError, Example.adapter "pytorch").
Proof.
have [_ torch tf] :=
  @unregistered_model Example.backend Example.package Example.trained _
    [:: 16%N] [:: "relu"] Example.half Example.half Example.half false
    (Example.adapter "pytorch") (erefl _) (erefl _) (erefl _) (erefl _).
by split; [exact: torch | exact: tf].
Defined.

(** C3 fails on the TensorFlow adapter: under the backend [pytorch], for
    which it has no network, [build] raises [NotImplementedError], not
    [ModelNotFoundError]. *)
Lemma build_raises_not_implemented :
  (GalleryChebyNet.build [:: 16%N] [:: "relu"] Example.half Example.half
     Example.half false (Example.adapter "pytorch")).1
  = inl NotImplementedError /\
  (GalleryChebyNet.build [:: 16%N] [:: "relu"] Example.half Example.half
     Example.half false (Example.adapter "pytorch")).1
  <> inl ModelNotFoundError.
Proof. by []. Qed.

(** C10, as the code has it. When the supervised model is given a
    normalisation rate (the default is -0.5), its constructor keeps
    [order + 1] adjacency tensors and [build] creates [order + 1]
    adjacency placeholders for the same order, so the one item of
    [train_sequence] has as many inputs as the compiled model:
    the features, [order + 1] adjacency tensors and the index. *)
Theorem supervised_input_arity {B : Backend} (nodes features classes : nat)
    (adj x : array) (lab : seq nat) (k : nat) (rate : scalar)
    (norm_x_type device : string) (hiddens : seq nat)
    (activations : seq string) (dropout lr l2_norm : scalar)
    (ensure_shape : bool) (index : seq int) :
  size hiddens = size activations ->
  all (in_range lab) index ->
  let m := SupervisedChebyNet.init nodes features classes adj x lab k
             (Some rate) norm_x_type device in
  let r := SupervisedChebyNet.build hiddens activations dropout lr l2_norm
             ensure_shape m in
  exists km x' adjs s,
    [/\ r.1 = inr tt /\ SupervisedChebyNet.model r.2 = Some km,
        SupervisedChebyNet.tf_x m = Some (One x')
        /\ SupervisedChebyNet.tf_adj m = Some (Many adjs),
        SupervisedChebyNet.train_sequence index r.2 = (inr s, r.2)
        /\ fbn_items s =
             [:: (TensorIn (One x') :: [seq TensorIn (One a) | a <- adjs]
                    ++ [:: IndexIn index],
                  [seq nth 0%N lab `|i| | i <- index])],
        size adjs = k.+1
        /\ size [seq i <- SupervisedChebyNet.km_inputs km
                | SupervisedChebyNet.in_sparse i] = k.+1
      & size (fbn_inputs s) = k.+3
        /\ size (SupervisedChebyNet.km_inputs km) = k.+3].
Proof.
move=> eq_sz /np_take_in_range take m r.
have [ord_m lab_m [x' tf_x_m] [adjs tf_adj_m sz_adjs]] :=
  SupervisedFacts.init_tf_adj nodes features classes adj x lab k rate
    norm_x_type device.
have [km [ok built same_x same_adj same_lab] [sz_in sz_sparse _]] :=
  SupervisedFacts.build_inputs dropout lr l2_norm ensure_shape
    (SupervisedChebyNet.init nodes features classes adj x lab k (Some rate)
       norm_x_type device) eq_sz.
have seqE : SupervisedChebyNet.train_sequence index r.2
    = (inr {| fbn_inputs := TensorIn (One x')
                              :: [seq TensorIn (One a) | a <- adjs]
                              ++ [:: IndexIn index];
              fbn_labels := [seq nth 0%N lab `|i| | i <- index];
              fbn_device := None |}, r.2).
  rewrite /SupervisedChebyNet.train_sequence /bind /reads /lift.
  rewrite /SupervisedChebyNet.attr_get same_lab lab_m take same_x tf_x_m.
  by rewrite same_adj tf_adj_m /= -map_comp.
exists km, x', adjs; eexists; split.
- by split; [exact: ok | exact: built].
- by split; [exact: tf_x_m | exact: tf_adj_m].
- by split; [exact: seqE | reflexivity].
- by split; [exact: sz_adjs | rewrite sz_sparse ord_m].
- by rewrite sz_in ord_m /= size_cat size_map /= addn1 sz_adjs.
Qed.

(** The supervised model of order 2 on the two-node graph. *)
Lemma supervised_input_arity_witness :
  exists km s,
    SupervisedChebyNet.model
      (SupervisedChebyNet.build [:: 16%N] [:: "relu"] Example.half
         Example.half Example.half true
         (Example.supervised (Some Example.rate))).2 = Some km /\
    (SupervisedChebyNet.train_sequence [:: 1; 0]
       (SupervisedChebyNet.build [:: 16%N] [:: "relu"] Example.half
          Example.half Example.half true
          (Example.supervised (Some Example.rate))).2).1 = inr s /\
    size (fbn_inputs s) = 5%N /\
    size (SupervisedChebyNet.km_inputs km) = 5%N.
Proof.
have [km [x' [adjs [s [[_ built] _ [loaded _] _ [sz_s sz_km]]]]]] :=
  @supervised_input_arity Example.backend 2 2 2 Example.eye Example.eye
    [:: 0%N; 1%N] 2 Example.rate "row_wise" "CPU:0" [:: 16%N] [:: "relu"]
    Example.half Example.half Example.half true [:: 1; 0] (erefl _) isT.
exists km, s; split; first exact: built.
by split; [rewrite loaded | split; [exact: sz_s | exact: sz_km]].
Defined.

(** C10 fails without a normalisation rate: the constructor of the
    model of order 2 keeps the one tensor of the adjacency matrix, not
    three adjacency tensors. *)
Lemma supervised_without_rate :
  SupervisedChebyNet.order (Example.supervised None) = 2%N /\
  SupervisedChebyNet.tf_adj (Example.supervised None)
    = Some (One Example.eye) /\
  ~ (exists2 adjs,
       SupervisedChebyNet.tf_adj (Example.supervised None) = Some (Many adjs)
     & size adjs = (SupervisedChebyNet.order (Example.supervised None)).+1).
Proof. by split=> //; split=> //; case. Qed.

(** * Further properties of the code *)

(** ** Indexing *)

Lemma np_item_valid (a : seq nat) (i : int) :
  np_item a i = if np_valid a i then inr (nth 0%N a (np_wrap a i))
                else inl IndexError.
Proof.
case: i => [k|k]; rewrite /np_valid /np_item /np_wrap.
  by rewrite ltz_nat (@le_trans _ _ 0) ?oppr_le0 //=; case: ifP.
rewrite NegzE ltNz_nat andbT lerN2 lez_nat.
by case: ifP.
Qed.

Lemma np_take_valid (a : seq nat) (index : seq int) :
  np_take a index =
    if all (np_valid a) index then inr [seq nth 0%N a (np_wrap a i) | i <- index]
    else inl IndexError.
Proof.
elim: index => [|i index IH] //=; rewrite IH np_item_valid.
by case: (np_valid a i) => //=; case: (all _ _).
Qed.

Lemma in_range_valid (a : seq nat) (i : int) : in_range a i -> np_valid a i.
Proof.
rewrite /in_range /np_valid => /andP [i_ge0 ->]; rewrite andbT.
by apply: le_trans i_ge0; rewrite oppr_le0.
Qed.

(** ** The SSGConv layer *)

Module SSGCMore.
Import SSGC SSGCOps.
Section Layer.

Variable F : numFieldType.
Variables n d : nat.

Local Notation heap := (heap F n d).
Local Notation SSGConv := (SSGConv F).

Lemma outputE (l : SSGConv) (adj : 'M[F]_n) (h : heap) (x : ref) :
  (x < size h)%N ->
  output l adj h x =
    alpha l *: read h x +
    (K l)%:~R^-1 *: ssgc_sum (alpha l) adj (read h x) (range (K l)).
Proof. by move=> lt_x; case: (SSGCFacts.forward_spec l adj lt_x). Qed.

Lemma ssgc_sum_linear (a b c : F) (A : 'M[F]_n) (X Y : 'M[F]_(n, d))
    (k : nat) :
  ssgc_sum a A (b *: X + c *: Y) k
  = b *: ssgc_sum a A X k + c *: ssgc_sum a A Y k.
Proof.
rewrite /ssgc_sum !scalerDr !scaler_sumr -!addrA; congr (_ + _).
rewrite [in RHS]addrCA; congr (_ + _); rewrite -big_split /=.
apply: eq_bigr => i _.
by rewrite mulmxDr -!scalemxAr scalerDr !scalerA [b * _]mulrC [c * _]mulrC.
Qed.

Lemma mxpow_comm (A : 'M[F]_n) (k : nat) : mxpow A k *m A = A *m mxpow A k.
Proof. by elim: k => [|k IH] /=; rewrite ?mul1mx ?mulmx1 // -mulmxA IH. Qed.

Lemma mxpow_eigen (A : 'M[F]_n) (X : 'M[F]_(n, d)) (lam : F) (k : nat) :
  A *m X = lam *: X -> mxpow A k *m X = lam ^+ k *: X.
Proof.
move=> eig; elim: k => [|k IH] /=; first by rewrite mul1mx expr0 scale1r.
by rewrite -mulmxA IH -scalemxAr eig scalerA -exprSr.
Qed.

Lemma forward_ref_valid (l : SSGConv) (adj : 'M[F]_n) (h : heap) (x : ref) :
  (x < size h)%N ->
  ((forward l x adj h).1 < size (forward l x adj h).2)%N
  /\ (size h <= size (forward l x adj h).2)%N.
Proof.
move=> lt_x; rewrite /forward.
case: (SSGCFacts.loop_invariant l adj (range (K l)) lt_x).
case: (iter _ _ _) => [[x1 x_out] h1] /= le_h _ _ _ _ _.
rewrite /alloc /write /= size_set_nth !size_rcons.
have -> : maxn (size h1).+1 (size h1).+2 = (size h1).+2.
  by apply/maxn_idPr.
by split=> //; do 2!apply: leqW.
Qed.

(** X1. [forward] is linear in the features: on a tensor that is the
    combination [b x + c y] of two tensors of the heap it returns the
    same combination of what it returns on [x] and on [y]. *)
Theorem forward_linear (l : SSGConv) (adj : 'M[F]_n) (h : heap)
    (x y z : ref) (b c : F) :
  (x < size h)%N -> (y < size h)%N -> (z < size h)%N ->
  read h z = b *: read h x + c *: read h y ->
  output l adj h z = b *: output l adj h x + c *: output l adj h y.
Proof.
move=> lt_x lt_y lt_z val_z; rewrite !outputE // val_z ssgc_sum_linear.
move: (ssgc_sum _ _ (read h x) _) (ssgc_sum _ _ (read h y) _) => Sx Sy.
rewrite !scalerDr !scalerA [alpha l * b]mulrC [alpha l * c]mulrC.
by rewrite [_ * b]mulrC [_ * c]mulrC addrACA.
Qed.

(** X2. On features that the adjacency matrix scales by [lam],
    [forward] scales them by
    alpha + (1/K) (1 + sum for k = 1..K of ((1 - alpha) lam)^k). *)
Theorem forward_eigen (l : SSGConv) (adj : 'M[F]_n) (h : heap) (x : ref)
    (lam : F) :
  (x < size h)%N ->
  adj *m read h x = lam *: read h x ->
  output l adj h x = gain l lam *: read h x.
Proof.
move=> lt_x eig; rewrite outputE // /gain scalerDl; congr (_ + _).
rewrite -scalerA; congr (_ *: _).
rewrite /ssgc_sum scalerDl scale1r scaler_suml; congr (_ + _).
apply: eq_bigr => k _.
by rewrite (mxpow_eigen _ eig) scalerA exprMn.
Qed.

(** X3. With [alpha = 1] nothing is propagated: whatever the adjacency
    matrix, [forward] returns [x + x / K]. *)
Theorem forward_alpha_one (l : SSGConv) (adj : 'M[F]_n) (h : heap)
    (x : ref) :
  (x < size h)%N -> alpha l = 1 ->
  output l adj h x = read h x + (K l)%:~R^-1 *: read h x.
Proof.
move=> lt_x a1; rewrite outputE // a1 scale1r /ssgc_sum; congr (_ + _ *: _).
rewrite big_nat_cond big1 ?addr0 // => k /andP [/andP [k_gt0 _] _].
by rewrite subrr expr0n eqn0Ngt k_gt0 scale0r.
Qed.

(** X4. A second call of [forward] on the same tensor returns a new
    tensor with the value of the first call, and the tensor the first
    call returned keeps its value: the in-place update of a call reaches
    no tensor of another call. *)
Theorem forward_twice (l : SSGConv) (adj : 'M[F]_n) (h : heap) (x : ref) :
  (x < size h)%N ->
  let r1 := (forward l x adj h).1 in
  let h1 := (forward l x adj h).2 in
  let r2 := (forward l x adj h1).1 in
  let h2 := (forward l x adj h1).2 in
  [/\ read h2 r2 = read h1 r1, read h2 r1 = read h1 r1 & (r1 < r2)%N].
Proof.
move=> lt_x r1 h1 r2 h2.
have [lt_r1 le_h1] := forward_ref_valid l adj lt_x.
have lt_x1 : (x < size h1)%N by exact: leq_trans lt_x le_h1.
have [val1 frame1 _] := SSGCFacts.forward_spec l adj lt_x.
have [val2 frame2 fresh2] := SSGCFacts.forward_spec l adj lt_x1.
split.
- by rewrite /r2 /h2 val2 /r1 /h1 val1 frame1.
- exact: frame2.
- exact: leq_trans lt_r1 fresh2.
Qed.

(** X5. [forward] commutes with the propagation: on the tensor
    [adj x] it returns [adj] times what it returns on [x]. *)
Theorem forward_commutes (l : SSGConv) (adj : 'M[F]_n) (h : heap)
    (x y : ref) :
  (x < size h)%N -> (y < size h)%N ->
  read h y = adj *m read h x ->
  output l adj h y = adj *m output l adj h x.
Proof.
move=> lt_x lt_y val_y; rewrite !outputE // val_y.
rewrite mulmxDr -!scalemxAr; congr (_ + _ *: _).
rewrite /ssgc_sum mulmxDr mulmx_sumr; congr (_ + _).
apply: eq_bigr => k _.
by rewrite -scalemxAr !mulmxA mxpow_comm.
Qed.

End Layer.

Lemma forward_linear_witness :
  output Fixture.layer 1%:M Fixture.heap3 2
  = 1 *: output Fixture.layer 1%:M Fixture.heap3 0
    + 1 *: output Fixture.layer 1%:M Fixture.heap3 1.
Proof.
exact: (@forward_linear rat 1 1 Fixture.layer 1%:M Fixture.heap3 0 1 2 1 1
          isT isT isT (erefl _)).
Defined.

Lemma forward_eigen_witness :
  output Fixture.layer 1%:M Fixture.heap3 0
  = gain Fixture.layer 1 *: read Fixture.heap3 0.
Proof.
apply: (@forward_eigen rat 1 1 Fixture.layer 1%:M Fixture.heap3 0 1 isT).
by rewrite mul1mx scale1r.
Defined.

Lemma forward_alpha_one_witness :
  output Fixture.layer_one 0 Fixture.heap3 0
  = read Fixture.heap3 0 + (2 : int)%:~R^-1 *: read Fixture.heap3 0.
Proof.
exact: (@forward_alpha_one rat 1 1 Fixture.layer_one 0 Fixture.heap3 0 isT
          (erefl _)).
Defined.

Lemma forward_twice_witness :
  read (forward Fixture.layer 0 1%:M
          (forward Fixture.layer 0 1%:M Fixture.heap3).2).2
       (forward Fixture.layer 0 1%:M Fixture.heap3).1
  = read (forward Fixture.layer 0 1%:M Fixture.heap3).2
         (forward Fixture.layer 0 1%:M Fixture.heap3).1.
Proof.
have [_ kept _] := @forward_twice rat 1 1 Fixture.layer 1%:M Fixture.heap3 0 isT.
exact: kept.
Defined.

Lemma forward_commutes_witness :
  output Fixture.layer 1%:M Fixture.heap3 1
  = 1%:M *m output Fixture.layer 1%:M Fixture.heap3 0.
Proof.
apply: (@forward_commutes rat 1 1 Fixture.layer 1%:M Fixture.heap3 0 1 isT isT).
by rewrite mul1mx.
Defined.

End SSGCMore.

(** ** Dictionaries *)

Lemma filter_consE {T : Type} (a : pred T) (x : T) (s : seq T) :
  filter a (x :: s) = if a x then x :: filter a s else filter a s.
Proof. by []. Qed.

Lemma setitem_setitem {V : Type} (k k' : string) (v v' : V)
    (m : seq (string * V)) :
  String.eqb k' k = false ->
  setitem k' v' (setitem k v m)
  = (k', v') :: (k, v)
      :: [seq p <- m | ~~ String.eqb k p.1 && ~~ String.eqb k' p.1].
Proof.
move=> ne; rewrite /setitem filter_consE [in X in if X then _ else _]/= ne.
rewrite -filter_predI.
by congr (_ :: _ :: _); apply: eq_filter => p /=; rewrite andbC.
Qed.

(** Binding two names again to the values they have changes nothing. *)
Lemma setitem_again {V : Type} (k k' : string) (v v' : V)
    (m : seq (string * V)) :
  String.eqb k' k = false -> String.eqb k k' = false ->
  setitem k' v' (setitem k v (setitem k' v' (setitem k v m)))
  = setitem k' v' (setitem k v m).
Proof.
move=> ne ne'; rewrite !setitem_setitem //; congr (_ :: _ :: _).
rewrite !filter_consE [in X in if X then _ else _]/= ne' String.eqb_refl.
rewrite [in X in if X then _ else _]/= String.eqb_refl.
rewrite -filter_predI; apply: eq_filter => p /=.
by rewrite andbb.
Qed.

(** ** The PyTorch trainer *)

Module TorchMore.
Import TorchChebyNet.
Section Trainer.
Context {B : Backend}.

(** X6. [train_loader] accepts every index of [-N, N): the labels are
    taken at the positions the indices select, a negative index counting
    from the end, and the index set is handed on as it was given. *)
Theorem train_loader_wraps (t : Trainer) (index : seq int)
    (X : pyval tensor) (As : seq tensor) :
  assoc "X" (cache t) = Some X ->
  assoc "A" (cache t) = Some (Many As) ->
  all (np_valid (label (graph t))) index ->
  train_loader index t =
    (inr {| fb_x := X :: [seq One a | a <- As];
            fb_y := [seq nth 0%N (label (graph t)) (np_wrap (label (graph t)) i)
                    | i <- index];
            fb_out_index := index; fb_device := data_device t |}, t).
Proof.
move=> in_X in_A valid.
rewrite /train_loader /bind /reads /lift np_take_valid valid.
by rewrite /cache_get in_X in_A.
Qed.

(** X7. An index outside [-N, N) makes [train_loader] raise
    [IndexError], whatever the cache holds, and leaves the trainer as it
    was. *)
Theorem train_loader_index_error (t : Trainer) (index : seq int) :
  ~~ all (np_valid (label (graph t))) index ->
  train_loader index t = (inl IndexError, t).
Proof.
move=> /negPf invalid.
by rewrite /train_loader /bind /reads /lift np_take_valid invalid.
Qed.

(** X8. Before [data_step] has cached [A], [model_step] raises
    [AttributeError] without consulting the model registry, and so does
    [train_loader] on valid indices; the trainer is left as it was. *)
Theorem before_data_step (mreg : model_registry) (hids : seq nat)
    (acts : seq string) (dropout weight_decay lr : scalar) (bias : bool)
    (t : Trainer) (index : seq int) :
  assoc "A" (cache t) = None ->
  all (np_valid (label (graph t))) index ->
  model_step mreg hids acts dropout weight_decay lr bias t
    = (inl AttributeError, t) /\
  train_loader index t = (inl AttributeError, t).
Proof.
move=> no_A valid; split.
  by rewrite /model_step /bind /cache_get no_A.
rewrite /train_loader /bind /reads /lift np_take_valid valid /cache_get.
by case: (assoc "X" (cache t)) => [X|] //=; rewrite no_A.
Qed.

(** X9. A transform name that is not registered makes [data_step] fail
    with the error of the lookup and cache nothing; the adjacency
    transform is resolved first, the attribute transform only when the
    adjacency transform resolved. *)
Theorem data_step_unknown_transform (reg : registry) (name : string)
    (kw : kwargs) (other : transform_arg) (ta : Transform) (t : Trainer) :
  assoc name reg = None ->
  get reg other = inr ta ->
  [/\ forall b, data_step reg (ByName name) b t
                = (inl UnknownTransformError, t),
      forall b, data_step reg (WithParams name kw) b t
                = (inl UnknownTransformError, t)
    & data_step reg other (ByName name) t = (inl UnknownTransformError, t)].
Proof.
move=> unknown get_other; split=> [b|b|].
- by rewrite /data_step /bind /reads /lift /= unknown.
- by rewrite /data_step /bind /reads /lift /= unknown.
- by rewrite /data_step /bind /reads /lift [get reg other]get_other /= unknown.
Qed.

(** X10. [data_step] can be run again: a second run with the same
    arguments returns what the first returned and leaves the cache as
    the first left it. *)
Theorem data_step_idempotent (reg : registry) (a b : transform_arg)
    (t : Trainer) :
  data_step reg a b (data_step reg a b t).2 = data_step reg a b t.
Proof.
rewrite /data_step /bind /reads /lift /=.
case: (get reg a) => [e|ta] /=; first by [].
case: (get reg b) => [e|tx] /=; first by [].
rewrite /register_cache /modify /set_cache /=; congr (_, _).
by congr (Build_Trainer _ _ _ _); exact: setitem_again.
Qed.

(** X11. The input list of [train_loader] holds the attribute tensor
    and the cached adjacency tensors: one tensor more than the [K] that
    [model_step] gives the network. *)
Theorem loader_arity (mreg : model_registry) (hids : seq nat)
    (acts : seq string) (dropout weight_decay lr : scalar) (bias : bool)
    (ctor : hyper scalar -> result network) (t : Trainer) (index : seq int)
    (X : pyval tensor) (As : seq tensor) :
  assoc "X" (cache t) = Some X ->
  assoc "A" (cache t) = Some (Many As) ->
  get_model mreg "ChebyNet" (backend t) = inr ctor ->
  all (np_valid (label (graph t))) index ->
  exists s args,
    [/\ train_loader index t = (inr s, t),
        model_step mreg hids acts dropout weight_decay lr bias t
          = (ctor args, t)
      & size (fb_x s) = (h_K args).+1].
Proof.
move=> in_X in_A in_mreg valid.
rewrite (TorchFacts.model_stepE _ _ _ _ _ _ in_A in_mreg).
rewrite /train_loader /bind /reads /lift np_take_valid valid.
rewrite /cache_get in_X in_A /=.
by do 2!eexists; split; [reflexivity | reflexivity | rewrite /= size_map].
Qed.

(** X12. [model_step] and [train_loader] only read the trainer: they
    leave it as it was for every argument, whether they return or
    raise. *)
Theorem trainer_read_only (mreg : model_registry) (hids : seq nat)
    (acts : seq string) (dropout weight_decay lr : scalar) (bias : bool)
    (index : seq int) (t : Trainer) :
  (model_step mreg hids acts dropout weight_decay lr bias t).2 = t /\
  (train_loader index t).2 = t.
Proof.
split.
  rewrite /model_step /bind /cache_get /reads /lift.
  case: (assoc "A" (cache t)) => [A|] //=.
  by case: (get_model _ _ _).
rewrite /train_loader /bind /cache_get /reads /lift.
case: (np_take _ _) => [e|labels] //=.
case: (assoc "X" (cache t)) => [X|] //=.
case: (assoc "A" (cache t)) => [A|] //=.
by case: (unpack A).
Qed.

(** X13. The package of PyTorch models binds no [ChebyNet] by its own
    import lines: unless the starred import of [parinorm] brings one,
    [model_step] fails with [ModelNotFoundError] on the registry the
    package fills, under every backend. *)
Theorem package_has_no_chebynet (parinorm : seq string)
    (ctor : string -> hyper scalar -> result network) (hids : seq nat)
    (acts : seq string) (dropout weight_decay lr : scalar) (bias : bool)
    (t : Trainer) (A : pyval tensor) :
  ~~ has (String.eqb "ChebyNet") parinorm ->
  assoc "A" (cache t) = Some A ->
  model_step (PyTorchModels.registered parinorm ctor) hids acts dropout
    weight_decay lr bias t = (inl ModelNotFoundError, t).
Proof.
move=> not_star in_A.
rewrite /model_step /bind /cache_get in_A /reads /lift /get_model.
by rewrite TorchFacts.find_model_registered.
Qed.

End Trainer.

(** The trained trainer of the two-node graph and the index set -1, 0. *)
Lemma train_loader_wraps_witness :
  exists2 s,
    train_loader [:: -1; 0] Example.trained = (inr s, Example.trained)
  & fb_y s = [:: 1%N; 0%N] /\ fb_out_index s = [:: -1; 0].
Proof.
rewrite (@train_loader_wraps Example.backend Example.trained [:: -1; 0] _ _
           (erefl _) (erefl _) isT).
by eexists; first reflexivity.
Defined.

(** The index 2 on the two labels of the trainer that has cached nothing. *)
Lemma train_loader_index_error_witness :
  train_loader [:: 0; 2] Example.trainer = (inl IndexError, Example.trainer).
Proof.
exact: (@train_loader_index_error Example.backend Example.trainer [:: 0; 2]
          isT).
Defined.

Lemma before_data_step_witness :
  model_step Example.torch_models [:: 16%N] [:: "relu"] Example.half
    Example.half Example.half false Example.trainer
  = (inl AttributeError, Example.trainer).
Proof.
exact: (proj1 (@before_data_step Example.backend Example.torch_models
                 [:: 16%N] [:: "relu"] Example.half Example.half Example.half
                 false Example.trainer [:: -2; 1] (erefl _) isT)).
Defined.

Lemma data_step_unknown_transform_witness :
  data_step Example.torch_registry (ByName "normalize_adj") NoTransform
    Example.trainer
  = (inl UnknownTransformError, Example.trainer).
Proof.
have [by_name _ _] :=
  @data_step_unknown_transform Example.backend Example.torch_registry
    "normalize_adj" [::] NoTransform null_transform Example.trainer
    (erefl _) (erefl _).
exact: by_name.
Defined.

Lemma loader_arity_witness :
  exists s args,
    [/\ train_loader [:: 1] Example.trained = (inr s, Example.trained),
        model_step Example.torch_models [:: 16%N] [:: "relu"] Example.half
          Example.half Example.half false Example.trained
        = (Example.torch_ctor args, Example.trained)
      & size (fb_x s) = (h_K args).+1].
Proof.
exact: (@loader_arity Example.backend Example.torch_models [:: 16%N]
          [:: "relu"] Example.half Example.half Example.half false
          Example.torch_ctor Example.trained [:: 1] _ _ (erefl _) (erefl _)
          (erefl _) isT).
Defined.

Lemma package_has_no_chebynet_witness :
  model_step (PyTorchModels.registered [:: "PairNorm"]
                (fun _ => Example.torch_ctor))
    [:: 16%N] [:: "relu"] Example.half Example.half Example.half false
    Example.trained
  = (inl ModelNotFoundError, Example.trained).
Proof.
exact: (@package_has_no_chebynet Example.backend [:: "PairNorm"]
          (fun _ => Example.torch_ctor) [:: 16%N] [:: "relu"] Example.half
          Example.half Example.half false Example.trained _ isT (erefl _)).
Defined.

End TorchMore.

(** ** The TensorFlow adapter *)

Module GalleryMore.
Import GalleryChebyNet.
Section Adapter.
Context {B : Backend}.

Lemma train_sequence_set_model (n : network) (index : seq int)
    (m : GalleryModel) :
  (train_sequence index (set_model n m)).1 = (train_sequence index m).1.
Proof.
rewrite /train_sequence /bind /reads /lift /attr_get /=.
case: (np_take _ _) => [e|labels] //=.
case: (feature_inputs m) => [fi|] //=.
case: (structure_inputs m) => [si|] //=.
by case: (unpack si).
Qed.

(** X14. Under the backend [tensorflow], [build] on an adapter whose
    adjacency transform has no [order] raises [AttributeError] before
    the network is constructed and leaves the adapter as it was. *)
Theorem build_without_order (hiddens : seq nat) (activations : seq string)
    (dropout weight_decay lr : scalar) (use_bias : bool) (m : GalleryModel) :
  backend m = "tensorflow" ->
  size hiddens = size activations ->
  assoc "order" (tr_params (adj_transform m)) = None ->
  build hiddens activations dropout weight_decay lr use_bias m
    = (inl AttributeError, m).
Proof.
move=> is_tf eq_sz no_order; rewrite /build /equal /= andbT eq_sz eqxx.
by rewrite /bind /reads /lift /= is_tf /= /getattr no_order.
Qed.

(** [process_step] can be run again: the second run stores the inputs
    the first run stored. *)
Lemma process_step_idempotent (m : GalleryModel) :
  process_step (process_step m).2 = process_step m.
Proof. by []. Qed.

(** X15. [build] does not disturb the inputs: whatever its arguments
    and whether it returns or raises, [train_sequence] answers after it
    as it did before. *)
Theorem build_keeps_sequence (hiddens : seq nat) (activations : seq string)
    (dropout weight_decay lr : scalar) (use_bias : bool) (index : seq int)
    (m : GalleryModel) :
  (train_sequence index
     (build hiddens activations dropout weight_decay lr use_bias m).2).1
  = (train_sequence index m).1.
Proof.
rewrite /build /equal /= andbT; case: ifP => // _.
rewrite /bind /reads /lift /=; case: (String.eqb _ _) => //=.
case: (getattr _ _) => [e|k] //=.
case: (tfChebyNet _) => [e|n] //=.
exact: train_sequence_set_model.
Qed.

(** X16. An adapter that [__init__] returned has its inputs: with a
    transform that yields a tuple of matrices, [train_sequence] succeeds
    on every index set of [-N, N), and its list of inputs holds the
    attribute tensor, one tensor for each matrix and the index set. *)
Theorem init_then_train_sequence (reg : registry) (g : Graph)
    (a b : transform_arg) (device backend : string) (m : GalleryModel)
    (Ms : seq array) (index : seq int) :
  init reg g a b device backend = inr m ->
  tr_call (adj_transform m) (adj_matrix g) = Many Ms ->
  all (np_valid (label g)) index ->
  exists2 s, train_sequence index m = (inr s, m)
  & [/\ size (fbn_inputs s) = (size Ms).+2,
        last (IndexIn [::]) (fbn_inputs s) = IndexIn index
      & fbn_labels s = [seq nth 0%N (label g) (np_wrap (label g) i)
                       | i <- index]].
Proof.
rewrite /init; case: (get reg a) => [//|ta]; case: (get reg b) => [//|tx].
rewrite /process_step /bind /reads /modify /= => -[<-] /= call_adj valid.
rewrite /train_sequence /bind /reads /lift /attr_get /= np_take_valid valid.
rewrite call_adj /=; eexists; first reflexivity.
split=> //=; first by rewrite size_cat !size_map /= addn1.
by rewrite last_cat.
Qed.

End Adapter.

(** The adapter of the two-node graph whose adjacency transform is
    [None]. *)
Lemma build_without_order_witness :
  build [:: 16%N] [:: "relu"] Example.half Example.half Example.half false
    Fixture.plain_adapter
  = (inl AttributeError, Fixture.plain_adapter).
Proof.
exact: (@build_without_order Example.backend [:: 16%N] [:: "relu"]
          Example.half Example.half Example.half false Fixture.plain_adapter
          (erefl _) (erefl _) (erefl _)).
Defined.

(** The adapter of the two-node graph with the default transform, and
    the index set -1, 0. *)
Lemma init_then_train_sequence_witness :
  exists m s,
    [/\ init Example.tf_registry Example.graph default_adj_transform
          NoTransform "cpu:0" "tensorflow" = inr m,
        train_sequence [:: -1; 0] m = (inr s, m),
        size (fbn_inputs s) = 5%N
      & fbn_labels s = [:: 1%N; 0%N]].
Proof.
have made := @GalleryFacts.initE Example.backend Example.tf_registry
  Example.graph default_adj_transform NoTransform "cpu:0" "tensorflow"
  _ _ (erefl _) (erefl _).
have [s loaded [sz _ lab]] :=
  @init_then_train_sequence Example.backend Example.tf_registry Example.graph
    default_adj_transform NoTransform "cpu:0" "tensorflow" _
    (@cheby_basis Example.backend Example.rate 2 Example.eye) [:: -1; 0]
    made (erefl _) isT.
by eexists; exists s; split; [exact: made | exact: loaded | exact: sz | exact: lab].
Defined.

End GalleryMore.

(** ** The supervised TensorFlow model *)

Module SupervisedMore.
Import SupervisedChebyNet SupervisedLayers SupervisedPredict.
Section Model.
Context {B : Backend}.

(** The hidden part of the stack: a convolution and a dropout for each
    pair of a width and an activation. *)
Lemma hidden_layers (k : nat) (dropout l2_norm : scalar)
    (z : seq (nat * string)) :
  let h := flatten [seq [:: ChebyConvolution p.1 k (Some p.2) (Some l2_norm);
                            Dropout dropout] | p <- z] in
  [/\ size h = (size z).*2, count is_conv h = size z,
      count is_dropout h = size z & all (conv_order k) h].
Proof.
elim: z => [|p z [sz convs drops orders]] //=.
by rewrite sz convs drops orders eqxx add0n !add1n.
Qed.

(** X17. With lists of one length [build] compiles a stack of one
    convolution and one dropout for each hidden width, the output
    convolution, the shape check when it is asked for, the gather and
    the softmax; every convolution has the order of the model, for which
    [build] also creates the adjacency placeholders. *)
Theorem build_layers (hiddens : seq nat) (activations : seq string)
    (dropout lr l2_norm : scalar) (ensure_shape : bool) (m : ChebyNet) :
  size hiddens = size activations ->
  exists2 km,
    model (build hiddens activations dropout lr l2_norm ensure_shape m).2
      = Some km
  & [/\ size (km_layers km) = ((size hiddens).*2 + ensure_shape + 3)%N,
        count is_conv (km_layers km) = (size hiddens).+1,
        count is_dropout (km_layers km) = size hiddens,
        all (conv_order (order m)) (km_layers km)
      & last Gather (km_layers km) = Softmax].
Proof.
move=> eq_sz; rewrite /build eq_sz eqxx /=.
eexists; first reflexivity.
have [] := hidden_layers (order m) dropout l2_norm (zip hiddens activations).
rewrite size_zip eq_sz minnn /=; move: (flatten _) => h sz convs drops orders.
case: ensure_shape => /=.
- rewrite !size_rcons -!cats1 !count_cat !all_cat /= orders convs drops sz.
  by rewrite eqxx !addn0 last_cat /=; split; rewrite ?addn0 ?addn1 ?addn3.
- rewrite !size_rcons -!cats1 !count_cat !all_cat /= orders convs drops sz.
  by rewrite eqxx !addn0 last_cat /=; split; rewrite ?addn0 ?addn1 ?addn3.
Qed.

(** [build] can be repeated: a second call with the same arguments
    compiles the model the first call compiled, and neither call touches
    the tensors, the labels or the order. *)
Lemma build_repeat (hiddens : seq nat) (activations : seq string)
    (dropout lr l2_norm : scalar) (ensure_shape : bool) (m : ChebyNet) :
  size hiddens = size activations ->
  let run := build hiddens activations dropout lr l2_norm ensure_shape in
  [/\ model (run (run m).2).2 = model (run m).2,
      (run (run m).2).1 = inr tt,
      tf_x (run (run m).2).2 = tf_x m /\ tf_adj (run (run m).2).2 = tf_adj m
    & labels (run (run m).2).2 = labels m /\ order (run (run m).2).2 = order m].
Proof. by move=> eq_sz; rewrite /build eq_sz eqxx. Qed.


Variable logits : Type.
Variable super_predict : seq int -> pym ChebyNet unit.
Variable predict_on_batch : keras_model -> seq tf_input -> result logits.
Variable is_tensor : logits -> bool.
Variable numpy : logits -> logits.

(** X19. When the check of the base class passes, [predict] gives the
    compiled model the list of inputs that the item of [train_sequence]
    holds for the same index set, and returns its answer, converted when
    it is a tensor; an error of the model is passed on. The object is
    left as it was. *)
Theorem predict_inputs (index : seq int) (m : ChebyNet) (km : keras_model)
    (s : FullBatchNodeSequence) :
  super_predict index m = (inr tt, m) ->
  model m = Some km ->
  train_sequence index m = (inr s, m) ->
  predict super_predict predict_on_batch is_tensor numpy index m =
    (match predict_on_batch km (fbn_inputs s) with
     | inr logit => inr (if is_tensor logit then numpy logit else logit)
     | inl e => inl e
     end, m).
Proof.
move=> passed has_model.
rewrite /train_sequence /predict /bind /reads /lift /attr_get /model_get.
rewrite passed has_model /=.
case: (np_take _ _) => [e|lab] //=.
case: (tf_x m) => [x'|] //=; case: (tf_adj m) => [adj'|] //=.
case: (unpack adj') => [e|adjs] //= [<-] /=.
by case: (predict_on_batch _ _).
Qed.

End Model.

(** Two hidden layers on the model of order 2. *)
Lemma build_layers_witness :
  exists2 km,
    model (build [:: 16%N; 8%N] [:: "relu"; "relu"] Example.half Example.half
             Example.half true (Example.supervised (Some Example.rate))).2
      = Some km
  & size (km_layers km) = 8%N /\ count is_conv (km_layers km) = 3%N.
Proof.
have [km made [sz convs _ _ _]] :=
  @build_layers Example.backend [:: 16%N; 8%N] [:: "relu"; "relu"]
    Example.half Example.half Example.half true
    (Example.supervised (Some Example.rate)) (erefl _).
by exists km; [exact: made | split; [exact: sz | exact: convs]].
Defined.


(** The built model of order 2 and a Keras model that counts its
    inputs: there are five. *)
Lemma predict_inputs_witness :
  predict Fixture.accept Fixture.count_inputs (fun _ => false) id [:: 1; 0]
    Fixture.built
  = (inr 5%N, Fixture.built).
Proof.
exact: (@predict_inputs Example.backend nat Fixture.accept
          Fixture.count_inputs (fun _ => false) id [:: 1; 0] Fixture.built
          _ _ (erefl _) (erefl _) (erefl _)).
Defined.

End SupervisedMore.

